(** * MiFlora BLE driver: shallow embedding of [miflora.py]

    The driver object of class [MiFlora] is a record of its attributes.
    Methods are computations in a state-and-exception monad over that
    record: an exception leaves the attributes as they were when it was
    raised, as in Python.  The host stack ([ubluetooth.BLE]) and the
    callbacks handed in by the application are not part of the file; they
    are parameters of the development.  Every call into the host stack and
    every callback invocation is appended to the ghost field [trace].

    Python values are modelled as follows: [int] as [Z], [bytes] and
    [memoryview] as [list byte], [None] or a value as [option], the float
    [x / 10.0] as the rational [x # 10].  A [str] is the [string] of its
    UTF-8 encoding, which is how MicroPython keeps it: on 7-bit text that is
    one character per byte, and [str_len] counts the characters in general.
    A UUID is modelled by its string form, the dictionaries [services] and
    [characteristics] as finite maps keyed by that string.

    The file runs on MicroPython.  What it takes from the runtime is
    modelled after the runtime: [str(b, 'UTF-8')] checks that the bytes are
    well-formed UTF-8 and raises [UnicodeError] otherwise, and
    [time.ticks_ms] and [time.ticks_diff] count modulo [2 ^ 30], the period
    of the ports with 31-bit small integers.

    [_debug] only prints and is left out; [self.debug], which the class
    does not define, is kept.  The two calls that the constructor makes
    into the host stack ([active], [irq]) are not recorded: the trace
    starts empty.  The demonstration loops are not modelled. *)

From stdpp Require Import gmap strings list.
From Stdlib Require Import ZArith QArith Lia.
From Stdlib.Strings Require Import Byte.

Open Scope Z_scope.

(** ** Module constants *)

Definition AUTO_MODE : Z := 1.
Definition _DISCOVER_SERVICES : bool := false.
Definition _DISCOVER_CHARACTERISTICS : bool := false.

Definition _T_WAIT : Z := 100.

Definition _IRQ_SCAN_RESULT : Z := 5.
Definition _IRQ_SCAN_DONE : Z := 6.
Definition _IRQ_PERIPHERAL_CONNECT : Z := 7.
Definition _IRQ_PERIPHERAL_DISCONNECT : Z := 8.
Definition _IRQ_GATTC_SERVICE_RESULT : Z := 9.
Definition _IRQ_GATTC_SERVICE_DONE : Z := 10.
Definition _IRQ_GATTC_CHARACTERISTIC_RESULT : Z := 11.
Definition _IRQ_GATTC_CHARACTERISTIC_DONE : Z := 12.
Definition _IRQ_GATTC_READ_RESULT : Z := 15.
Definition _IRQ_GATTC_READ_DONE : Z := 16.
Definition _IRQ_GATTC_WRITE_DONE : Z := 17.
Definition _IRQ_GATTC_NOTIFY : Z := 18.

Definition _ADV_IND : Z := 0.
Definition _ADV_DIRECT_IND : Z := 1.
Definition _ADV_SCAN_RSP : Z := 4.

Definition _HANDLE_READ_VERSION_BATTERY : Z := 0x38.
Definition _HANDLE_WRITE_MODE_CHANGE : Z := 0x33.
Definition _DATA_MODE_CHANGE : list byte := [xa0; x1f].
Definition _HANDLE_READ_SENSOR_DATA : Z := 0x35.

Definition _S_INIT : Z := 0.
Definition _S_SCAN_DONE : Z := 1.
Definition _S_SERVICE_DONE : Z := 2.
Definition _S_CHARACTERISTIC_DONE : Z := 3.
Definition _S_READ_FIRMWARE_DONE : Z := 4.
Definition _S_MODE_CHANGE_DONE : Z := 5.
Definition _S_READ_SENSOR_DONE : Z := 6.

(** ** Python exceptions, truth values, bytes *)

Inductive exn : Set :=
| AttributeError
| IndexError
| TypeError
| ValueError
| UnicodeError  (* a subclass of [ValueError] *)
| OSError.

(** [if x:] on an [int] or [None]. *)
Definition truthy_int (x : option Z) : bool :=
  match x with
  | None => false
  | Some n => negb (n =? 0)
  end.

(** [if x:] on a [bytes] or [None]. *)
Definition truthy_bytes (x : option (list byte)) : bool :=
  match x with
  | None | Some [] => false
  | Some (_ :: _) => true
  end.

Definition byte_to_Z (b : byte) : Z := Z.of_N (Byte.to_N b).

Fixpoint bytes_eqb (x y : list byte) : bool :=
  match x, y with
  | [], [] => true
  | a :: x', b :: y' => Byte.eqb a b && bytes_eqb x' y'
  | _, _ => false
  end.

(** [x == y] where [y] may be [None]. *)
Definition eq_opt_int (x : Z) (y : option Z) : bool :=
  match y with
  | Some n => x =? n
  | None => false
  end.

Definition eq_opt_bytes (x : list byte) (y : option (list byte)) : bool :=
  match y with
  | Some b => bytes_eqb x b
  | None => false
  end.

(** [data[lo:hi]] for [0 <= lo <= hi]: never fails, may come out short. *)
Definition slice {A : Type} (lo hi : nat) (data : list A) : list A :=
  firstn (hi - lo) (skipn lo data).

(** *** [str(b, 'UTF-8')]

    MicroPython copies the bytes into the new [str] after [utf8_check] has
    accepted them, and raises [UnicodeError] without a message when it has
    not.  A byte below 0x80 stands alone, 0x80-0xBF continues a sequence,
    0xC0-0xDF, 0xE0-0xEF and 0xF0-0xF7 open a sequence of two, three and four
    bytes, and 0xF8-0xFF is never accepted; the text must not end inside a
    sequence.  (CPython refuses in addition overlong forms, surrogates and
    code points above 0x10FFFF.) *)

Definition utf8_is_cont (c : Z) : bool := (0x80 <=? c) && (c <? 0xc0).

(** [need]: the continuation bytes still owed to the sequence being read. *)
Fixpoint utf8_check_from (need : nat) (b : list byte) : bool :=
  match b with
  | [] => Nat.eqb need 0
  | c :: rest =>
      let c := byte_to_Z c in
      match need with
      | S n => if utf8_is_cont c then utf8_check_from n rest else false
      | O =>
          if c <? 0x80 then utf8_check_from 0 rest
          else if c <? 0xc0 then false
          else if c <? 0xe0 then utf8_check_from 1 rest
          else if c <? 0xf0 then utf8_check_from 2 rest
          else if c <? 0xf8 then utf8_check_from 3 rest
          else false
      end
  end.

Definition utf8_check (b : list byte) : bool := utf8_check_from 0 b.

Definition str_utf8 (b : list byte) : exn + string :=
  if utf8_check b then inr (String.string_of_list_byte b)
  else inl UnicodeError.


(** ** [struct.unpack] for the three formats of the file *)

Inductive struct_fmt : Set :=
| fmt_h   (* "<h": little-endian signed 16 bit *)
| fmt_I   (* "<I": little-endian unsigned 32 bit *)
| fmt_B.  (* "<B": unsigned 8 bit *)

Definition calcsize (f : struct_fmt) : nat :=
  match f with
  | fmt_h => 2
  | fmt_I => 4
  | fmt_B => 1
  end.

Fixpoint int_from_bytes_le (bs : list byte) : Z :=
  match bs with
  | [] => 0
  | b :: rest => byte_to_Z b + 256 * int_from_bytes_le rest
  end.

Definition to_signed (bits : Z) (u : Z) : Z :=
  if u <? 2 ^ (bits - 1) then u else u - 2 ^ bits.

(** The buffers handed to [unpack] in this file are slices, never longer
    than the format; a buffer shorter than the format is refused
    ([ValueError: buffer too small]). *)
Definition struct_unpack (f : struct_fmt) (buf : list byte) : exn + Z :=
  if (length buf <? calcsize f)%nat then inl ValueError
  else
    let u := int_from_bytes_le (firstn (calcsize f) buf) in
    inr (match f with
         | fmt_h => to_signed 16 u
         | fmt_I | fmt_B => u
         end).

(** ** The driver object *)

(** What a callback slot can hold: one of the driver's own bound methods,
    or a function of the application. *)
Inductive callback : Set :=
| self_scan_done
| self_read_firmware_done
| self_mode_change_done
| self_read_sensor_done
| py_function (id : nat).

Inductive cb_args : Set :=
| Args0
| Args1 (data : option (list byte))
| Args3 (addr_type : option Z) (addr : option (list byte))
        (name : option string).

Inductive slot : Set :=
| scan_slot | conn_slot | serv_done_slot | char_done_slot
| read_slot | write_slot | notify_slot.

(** Calls into [self._ble]. *)
Inductive host_call : Set :=
| ble_gap_scan_stop
| ble_gap_scan (duration_ms interval_us window_us : Z) (active : bool)
| ble_gap_connect (addr_type : Z) (addr : list byte)
| ble_gap_disconnect (conn_handle : Z)
| ble_gattc_discover_services (conn_handle : Z)
| ble_gattc_discover_characteristics (conn_handle start_handle end_handle : Z)
| ble_gattc_read (conn_handle value_handle : Z)
| ble_gattc_write (conn_handle value_handle : Z) (data : list byte) (mode : Z).

Inductive effect : Set :=
| HostCall (c : host_call) (accepted : bool)
| Invoked (sl : slot) (cb : callback) (args : cb_args).

Record MiFlora : Type := mkMiFlora {
  state : Z;
  search_addr : option (list byte);
  addr_found : bool;
  name : option string;
  rssi : Z;
  version : option string;
  battery : option Z;
  temp : option Q;
  light : option Z;
  moist : option Z;
  cond : option Z;
  _addr_type : option Z;
  _addr : option (list byte);
  _value : option (list byte);
  _scan_callback : option callback;
  _conn_callback : option callback;
  _serv_done_callback : option callback;
  _char_done_callback : option callback;
  _read_callback : option callback;
  _write_callback : option callback;
  _notify_callback : option callback;
  _conn_handle : option Z;
  _start_handle : option Z;
  _end_handle : option Z;
  _value_handle : option Z;
  (* set by the application or by the discovery methods, not by _reset;
     None: the attribute does not exist yet *)
  search_service : option string;
  services : option (gmap string (Z * Z));
  characteristics : option (gmap string (Z * Z * Z));
  (* ghost: host calls and callback invocations, oldest first *)
  trace : list effect
}.

(** Attribute assignments [self.x = v]. *)

Definition set_state (v : Z) (s : MiFlora) : MiFlora :=
  {| state := v; search_addr := search_addr s; addr_found := addr_found s;
     name := name s; rssi := rssi s; version := version s;
     battery := battery s; temp := temp s; light := light s;
     moist := moist s; cond := cond s; _addr_type := _addr_type s;
     _addr := _addr s; _value := _value s;
     _scan_callback := _scan_callback s; _conn_callback := _conn_callback s;
     _serv_done_callback := _serv_done_callback s;
     _char_done_callback := _char_done_callback s;
     _read_callback := _read_callback s;
     _write_callback := _write_callback s;
     _notify_callback := _notify_callback s; _conn_handle := _conn_handle s;
     _start_handle := _start_handle s; _end_handle := _end_handle s;
     _value_handle := _value_handle s; search_service := search_service s;
     services := services s; characteristics := characteristics s;
     trace := trace s |}.

Definition set_addr_found (v : bool) (s : MiFlora) : MiFlora :=
  {| state := state s; search_addr := search_addr s; addr_found := v;
     name := name s; rssi := rssi s; version := version s;
     battery := battery s; temp := temp s; light := light s;
     moist := moist s; cond := cond s; _addr_type := _addr_type s;
     _addr := _addr s; _value := _value s;
     _scan_callback := _scan_callback s; _conn_callback := _conn_callback s;
     _serv_done_callback := _serv_done_callback s;
     _char_done_callback := _char_done_callback s;
     _read_callback := _read_callback s;
     _write_callback := _write_callback s;
     _notify_callback := _notify_callback s; _conn_handle := _conn_handle s;
     _start_handle := _start_handle s; _end_handle := _end_handle s;
     _value_handle := _value_handle s; search_service := search_service s;
     services := services s; characteristics := characteristics s;
     trace := trace s |}.

Definition set_name (v : option string) (s : MiFlora) : MiFlora :=
  {| state := state s; search_addr := search_addr s;
     addr_found := addr_found s; name := v; rssi := rssi s;
     version := version s; battery := battery s; temp := temp s;
     light := light s; moist := moist s; cond := cond s;
     _addr_type := _addr_type s; _addr := _addr s; _value := _value s;
     _scan_callback := _scan_callback s; _conn_callback := _conn_callback s;
     _serv_done_callback := _serv_done_callback s;
     _char_done_callback := _char_done_callback s;
     _read_callback := _read_callback s;
     _write_callback := _write_callback s;
     _notify_callback := _notify_callback s; _conn_handle := _conn_handle s;
     _start_handle := _start_handle s; _end_handle := _end_handle s;
     _value_handle := _value_handle s; search_service := search_service s;
     services := services s; characteristics := characteristics s;
     trace := trace s |}.

Definition set_rssi (v : Z) (s : MiFlora) : MiFlora :=
  {| state := state s; search_addr := search_addr s;
     addr_found := addr_found s; name := name s; rssi := v;
     version := version s; battery := battery s; temp := temp s;
     light := light s; moist := moist s; cond := cond s;
     _addr_type := _addr_type s; _addr := _addr s; _value := _value s;
     _scan_callback := _scan_callback s; _conn_callback := _conn_callback s;
     _serv_done_callback := _serv_done_callback s;
     _char_done_callback := _char_done_callback s;
     _read_callback := _read_callback s;
     _write_callback := _write_callback s;
     _notify_callback := _notify_callback s; _conn_handle := _conn_handle s;
     _start_handle := _start_handle s; _end_handle := _end_handle s;
     _value_handle := _value_handle s; search_service := search_service s;
     services := services s; characteristics := characteristics s;
     trace := trace s |}.

Definition set_version (v : option string) (s : MiFlora) : MiFlora :=
  {| state := state s; search_addr := search_addr s;
     addr_found := addr_found s; name := name s; rssi := rssi s;
     version := v; battery := battery s; temp := temp s; light := light s;
     moist := moist s; cond := cond s; _addr_type := _addr_type s;
     _addr := _addr s; _value := _value s;
     _scan_callback := _scan_callback s; _conn_callback := _conn_callback s;
     _serv_done_callback := _serv_done_callback s;
     _char_done_callback := _char_done_callback s;
     _read_callback := _read_callback s;
     _write_callback := _write_callback s;
     _notify_callback := _notify_callback s; _conn_handle := _conn_handle s;
     _start_handle := _start_handle s; _end_handle := _end_handle s;
     _value_handle := _value_handle s; search_service := search_service s;
     services := services s; characteristics := characteristics s;
     trace := trace s |}.

Definition set_battery (v : option Z) (s : MiFlora) : MiFlora :=
  {| state := state s; search_addr := search_addr s;
     addr_found := addr_found s; name := name s; rssi := rssi s;
     version := version s; battery := v; temp := temp s; light := light s;
     moist := moist s; cond := cond s; _addr_type := _addr_type s;
     _addr := _addr s; _value := _value s;
     _scan_callback := _scan_callback s; _conn_callback := _conn_callback s;
     _serv_done_callback := _serv_done_callback s;
     _char_done_callback := _char_done_callback s;
     _read_callback := _read_callback s;
     _write_callback := _write_callback s;
     _notify_callback := _notify_callback s; _conn_handle := _conn_handle s;
     _start_handle := _start_handle s; _end_handle := _end_handle s;
     _value_handle := _value_handle s; search_service := search_service s;
     services := services s; characteristics := characteristics s;
     trace := trace s |}.

Definition set_temp (v : option Q) (s : MiFlora) : MiFlora :=
  {| state := state s; search_addr := search_addr s;
     addr_found := addr_found s; name := name s; rssi := rssi s;
     version := version s; battery := battery s; temp := v; light := light s;
     moist := moist s; cond := cond s; _addr_type := _addr_type s;
     _addr := _addr s; _value := _value s;
     _scan_callback := _scan_callback s; _conn_callback := _conn_callback s;
     _serv_done_callback := _serv_done_callback s;
     _char_done_callback := _char_done_callback s;
     _read_callback := _read_callback s;
     _write_callback := _write_callback s;
     _notify_callback := _notify_callback s; _conn_handle := _conn_handle s;
     _start_handle := _start_handle s; _end_handle := _end_handle s;
     _value_handle := _value_handle s; search_service := search_service s;
     services := services s; characteristics := characteristics s;
     trace := trace s |}.

Definition set_light (v : option Z) (s : MiFlora) : MiFlora :=
  {| state := state s; search_addr := search_addr s;
     addr_found := addr_found s; name := name s; rssi := rssi s;
     version := version s; battery := battery s; temp := temp s; light := v;
     moist := moist s; cond := cond s; _addr_type := _addr_type s;
     _addr := _addr s; _value := _value s;
     _scan_callback := _scan_callback s; _conn_callback := _conn_callback s;
     _serv_done_callback := _serv_done_callback s;
     _char_done_callback := _char_done_callback s;
     _read_callback := _read_callback s;
     _write_callback := _write_callback s;
     _notify_callback := _notify_callback s; _conn_handle := _conn_handle s;
     _start_handle := _start_handle s; _end_handle := _end_handle s;
     _value_handle := _value_handle s; search_service := search_service s;
     services := services s; characteristics := characteristics s;
     trace := trace s |}.

Definition set_moist (v : option Z) (s : MiFlora) : MiFlora :=
  {| state := state s; search_addr := search_addr s;
     addr_found := addr_found s; name := name s; rssi := rssi s;
     version := version s; battery := battery s; temp := temp s;
     light := light s; moist := v; cond := cond s;
     _addr_type := _addr_type s; _addr := _addr s; _value := _value s;
     _scan_callback := _scan_callback s; _conn_callback := _conn_callback s;
     _serv_done_callback := _serv_done_callback s;
     _char_done_callback := _char_done_callback s;
     _read_callback := _read_callback s;
     _write_callback := _write_callback s;
     _notify_callback := _notify_callback s; _conn_handle := _conn_handle s;
     _start_handle := _start_handle s; _end_handle := _end_handle s;
     _value_handle := _value_handle s; search_service := search_service s;
     services := services s; characteristics := characteristics s;
     trace := trace s |}.

Definition set_cond (v : option Z) (s : MiFlora) : MiFlora :=
  {| state := state s; search_addr := search_addr s;
     addr_found := addr_found s; name := name s; rssi := rssi s;
     version := version s; battery := battery s; temp := temp s;
     light := light s; moist := moist s; cond := v;
     _addr_type := _addr_type s; _addr := _addr s; _value := _value s;
     _scan_callback := _scan_callback s; _conn_callback := _conn_callback s;
     _serv_done_callback := _serv_done_callback s;
     _char_done_callback := _char_done_callback s;
     _read_callback := _read_callback s;
     _write_callback := _write_callback s;
     _notify_callback := _notify_callback s; _conn_handle := _conn_handle s;
     _start_handle := _start_handle s; _end_handle := _end_handle s;
     _value_handle := _value_handle s; search_service := search_service s;
     services := services s; characteristics := characteristics s;
     trace := trace s |}.

Definition set__addr_type (v : option Z) (s : MiFlora) : MiFlora :=
  {| state := state s; search_addr := search_addr s;
     addr_found := addr_found s; name := name s; rssi := rssi s;
     version := version s; battery := battery s; temp := temp s;
     light := light s; moist := moist s; cond := cond s; _addr_type := v;
     _addr := _addr s; _value := _value s;
     _scan_callback := _scan_callback s; _conn_callback := _conn_callback s;
     _serv_done_callback := _serv_done_callback s;
     _char_done_callback := _char_done_callback s;
     _read_callback := _read_callback s;
     _write_callback := _write_callback s;
     _notify_callback := _notify_callback s; _conn_handle := _conn_handle s;
     _start_handle := _start_handle s; _end_handle := _end_handle s;
     _value_handle := _value_handle s; search_service := search_service s;
     services := services s; characteristics := characteristics s;
     trace := trace s |}.

Definition set__addr (v : option (list byte)) (s : MiFlora) : MiFlora :=
  {| state := state s; search_addr := search_addr s;
     addr_found := addr_found s; name := name s; rssi := rssi s;
     version := version s; battery := battery s; temp := temp s;
     light := light s; moist := moist s; cond := cond s;
     _addr_type := _addr_type s; _addr := v; _value := _value s;
     _scan_callback := _scan_callback s; _conn_callback := _conn_callback s;
     _serv_done_callback := _serv_done_callback s;
     _char_done_callback := _char_done_callback s;
     _read_callback := _read_callback s;
     _write_callback := _write_callback s;
     _notify_callback := _notify_callback s; _conn_handle := _conn_handle s;
     _start_handle := _start_handle s; _end_handle := _end_handle s;
     _value_handle := _value_handle s; search_service := search_service s;
     services := services s; characteristics := characteristics s;
     trace := trace s |}.

Definition set__value (v : option (list byte)) (s : MiFlora) : MiFlora :=
  {| state := state s; search_addr := search_addr s;
     addr_found := addr_found s; name := name s; rssi := rssi s;
     version := version s; battery := battery s; temp := temp s;
     light := light s; moist := moist s; cond := cond s;
     _addr_type := _addr_type s; _addr := _addr s; _value := v;
     _scan_callback := _scan_callback s; _conn_callback := _conn_callback s;
     _serv_done_callback := _serv_done_callback s;
     _char_done_callback := _char_done_callback s;
     _read_callback := _read_callback s;
     _write_callback := _write_callback s;
     _notify_callback := _notify_callback s; _conn_handle := _conn_handle s;
     _start_handle := _start_handle s; _end_handle := _end_handle s;
     _value_handle := _value_handle s; search_service := search_service s;
     services := services s; characteristics := characteristics s;
     trace := trace s |}.

Definition set__scan_callback (v : option callback) (s : MiFlora) : MiFlora :=
  {| state := state s; search_addr := search_addr s;
     addr_found := addr_found s; name := name s; rssi := rssi s;
     version := version s; battery := battery s; temp := temp s;
     light := light s; moist := moist s; cond := cond s;
     _addr_type := _addr_type s; _addr := _addr s; _value := _value s;
     _scan_callback := v; _conn_callback := _conn_callback s;
     _serv_done_callback := _serv_done_callback s;
     _char_done_callback := _char_done_callback s;
     _read_callback := _read_callback s;
     _write_callback := _write_callback s;
     _notify_callback := _notify_callback s; _conn_handle := _conn_handle s;
     _start_handle := _start_handle s; _end_handle := _end_handle s;
     _value_handle := _value_handle s; search_service := search_service s;
     services := services s; characteristics := characteristics s;
     trace := trace s |}.

Definition set__conn_callback (v : option callback) (s : MiFlora) : MiFlora :=
  {| state := state s; search_addr := search_addr s;
     addr_found := addr_found s; name := name s; rssi := rssi s;
     version := version s; battery := battery s; temp := temp s;
     light := light s; moist := moist s; cond := cond s;
     _addr_type := _addr_type s; _addr := _addr s; _value := _value s;
     _scan_callback := _scan_callback s; _conn_callback := v;
     _serv_done_callback := _serv_done_callback s;
     _char_done_callback := _char_done_callback s;
     _read_callback := _read_callback s;
     _write_callback := _write_callback s;
     _notify_callback := _notify_callback s; _conn_handle := _conn_handle s;
     _start_handle := _start_handle s; _end_handle := _end_handle s;
     _value_handle := _value_handle s; search_service := search_service s;
     services := services s; characteristics := characteristics s;
     trace := trace s |}.

Definition set__serv_done_callback (v : option callback) (s : MiFlora) : MiFlora :=
  {| state := state s; search_addr := search_addr s;
     addr_found := addr_found s; name := name s; rssi := rssi s;
     version := version s; battery := battery s; temp := temp s;
     light := light s; moist := moist s; cond := cond s;
     _addr_type := _addr_type s; _addr := _addr s; _value := _value s;
     _scan_callback := _scan_callback s; _conn_callback := _conn_callback s;
     _serv_done_callback := v; _char_done_callback := _char_done_callback s;
     _read_callback := _read_callback s;
     _write_callback := _write_callback s;
     _notify_callback := _notify_callback s; _conn_handle := _conn_handle s;
     _start_handle := _start_handle s; _end_handle := _end_handle s;
     _value_handle := _value_handle s; search_service := search_service s;
     services := services s; characteristics := characteristics s;
     trace := trace s |}.

Definition set__char_done_callback (v : option callback) (s : MiFlora) : MiFlora :=
  {| state := state s; search_addr := search_addr s;
     addr_found := addr_found s; name := name s; rssi := rssi s;
     version := version s; battery := battery s; temp := temp s;
     light := light s; moist := moist s; cond := cond s;
     _addr_type := _addr_type s; _addr := _addr s; _value := _value s;
     _scan_callback := _scan_callback s; _conn_callback := _conn_callback s;
     _serv_done_callback := _serv_done_callback s; _char_done_callback := v;
     _read_callback := _read_callback s;
     _write_callback := _write_callback s;
     _notify_callback := _notify_callback s; _conn_handle := _conn_handle s;
     _start_handle := _start_handle s; _end_handle := _end_handle s;
     _value_handle := _value_handle s; search_service := search_service s;
     services := services s; characteristics := characteristics s;
     trace := trace s |}.

Definition set__read_callback (v : option callback) (s : MiFlora) : MiFlora :=
  {| state := state s; search_addr := search_addr s;
     addr_found := addr_found s; name := name s; rssi := rssi s;
     version := version s; battery := battery s; temp := temp s;
     light := light s; moist := moist s; cond := cond s;
     _addr_type := _addr_type s; _addr := _addr s; _value := _value s;
     _scan_callback := _scan_callback s; _conn_callback := _conn_callback s;
     _serv_done_callback := _serv_done_callback s;
     _char_done_callback := _char_done_callback s; _read_callback := v;
     _write_callback := _write_callback s;
     _notify_callback := _notify_callback s; _conn_handle := _conn_handle s;
     _start_handle := _start_handle s; _end_handle := _end_handle s;
     _value_handle := _value_handle s; search_service := search_service s;
     services := services s; characteristics := characteristics s;
     trace := trace s |}.

Definition set__write_callback (v : option callback) (s : MiFlora) : MiFlora :=
  {| state := state s; search_addr := search_addr s;
     addr_found := addr_found s; name := name s; rssi := rssi s;
     version := version s; battery := battery s; temp := temp s;
     light := light s; moist := moist s; cond := cond s;
     _addr_type := _addr_type s; _addr := _addr s; _value := _value s;
     _scan_callback := _scan_callback s; _conn_callback := _conn_callback s;
     _serv_done_callback := _serv_done_callback s;
     _char_done_callback := _char_done_callback s;
     _read_callback := _read_callback s; _write_callback := v;
     _notify_callback := _notify_callback s; _conn_handle := _conn_handle s;
     _start_handle := _start_handle s; _end_handle := _end_handle s;
     _value_handle := _value_handle s; search_service := search_service s;
     services := services s; characteristics := characteristics s;
     trace := trace s |}.

Definition set__notify_callback (v : option callback) (s : MiFlora) : MiFlora :=
  {| state := state s; search_addr := search_addr s;
     addr_found := addr_found s; name := name s; rssi := rssi s;
     version := version s; battery := battery s; temp := temp s;
     light := light s; moist := moist s; cond := cond s;
     _addr_type := _addr_type s; _addr := _addr s; _value := _value s;
     _scan_callback := _scan_callback s; _conn_callback := _conn_callback s;
     _serv_done_callback := _serv_done_callback s;
     _char_done_callback := _char_done_callback s;
     _read_callback := _read_callback s;
     _write_callback := _write_callback s; _notify_callback := v;
     _conn_handle := _conn_handle s; _start_handle := _start_handle s;
     _end_handle := _end_handle s; _value_handle := _value_handle s;
     search_service := search_service s; services := services s;
     characteristics := characteristics s; trace := trace s |}.

Definition set__conn_handle (v : option Z) (s : MiFlora) : MiFlora :=
  {| state := state s; search_addr := search_addr s;
     addr_found := addr_found s; name := name s; rssi := rssi s;
     version := version s; battery := battery s; temp := temp s;
     light := light s; moist := moist s; cond := cond s;
     _addr_type := _addr_type s; _addr := _addr s; _value := _value s;
     _scan_callback := _scan_callback s; _conn_callback := _conn_callback s;
     _serv_done_callback := _serv_done_callback s;
     _char_done_callback := _char_done_callback s;
     _read_callback := _read_callback s;
     _write_callback := _write_callback s;
     _notify_callback := _notify_callback s; _conn_handle := v;
     _start_handle := _start_handle s; _end_handle := _end_handle s;
     _value_handle := _value_handle s; search_service := search_service s;
     services := services s; characteristics := characteristics s;
     trace := trace s |}.

Definition set__start_handle (v : option Z) (s : MiFlora) : MiFlora :=
  {| state := state s; search_addr := search_addr s;
     addr_found := addr_found s; name := name s; rssi := rssi s;
     version := version s; battery := battery s; temp := temp s;
     light := light s; moist := moist s; cond := cond s;
     _addr_type := _addr_type s; _addr := _addr s; _value := _value s;
     _scan_callback := _scan_callback s; _conn_callback := _conn_callback s;
     _serv_done_callback := _serv_done_callback s;
     _char_done_callback := _char_done_callback s;
     _read_callback := _read_callback s;
     _write_callback := _write_callback s;
     _notify_callback := _notify_callback s; _conn_handle := _conn_handle s;
     _start_handle := v; _end_handle := _end_handle s;
     _value_handle := _value_handle s; search_service := search_service s;
     services := services s; characteristics := characteristics s;
     trace := trace s |}.

Definition set__end_handle (v : option Z) (s : MiFlora) : MiFlora :=
  {| state := state s; search_addr := search_addr s;
     addr_found := addr_found s; name := name s; rssi := rssi s;
     version := version s; battery := battery s; temp := temp s;
     light := light s; moist := moist s; cond := cond s;
     _addr_type := _addr_type s; _addr := _addr s; _value := _value s;
     _scan_callback := _scan_callback s; _conn_callback := _conn_callback s;
     _serv_done_callback := _serv_done_callback s;
     _char_done_callback := _char_done_callback s;
     _read_callback := _read_callback s;
     _write_callback := _write_callback s;
     _notify_callback := _notify_callback s; _conn_handle := _conn_handle s;
     _start_handle := _start_handle s; _end_handle := v;
     _value_handle := _value_handle s; search_service := search_service s;
     services := services s; characteristics := characteristics s;
     trace := trace s |}.

Definition set__value_handle (v : option Z) (s : MiFlora) : MiFlora :=
  {| state := state s; search_addr := search_addr s;
     addr_found := addr_found s; name := name s; rssi := rssi s;
     version := version s; battery := battery s; temp := temp s;
     light := light s; moist := moist s; cond := cond s;
     _addr_type := _addr_type s; _addr := _addr s; _value := _value s;
     _scan_callback := _scan_callback s; _conn_callback := _conn_callback s;
     _serv_done_callback := _serv_done_callback s;
     _char_done_callback := _char_done_callback s;
     _read_callback := _read_callback s;
     _write_callback := _write_callback s;
     _notify_callback := _notify_callback s; _conn_handle := _conn_handle s;
     _start_handle := _start_handle s; _end_handle := _end_handle s;
     _value_handle := v; search_service := search_service s;
     services := services s; characteristics := characteristics s;
     trace := trace s |}.

Definition set_services (v : option (gmap string (Z * Z))) (s : MiFlora) : MiFlora :=
  {| state := state s; search_addr := search_addr s;
     addr_found := addr_found s; name := name s; rssi := rssi s;
     version := version s; battery := battery s; temp := temp s;
     light := light s; moist := moist s; cond := cond s;
     _addr_type := _addr_type s; _addr := _addr s; _value := _value s;
     _scan_callback := _scan_callback s; _conn_callback := _conn_callback s;
     _serv_done_callback := _serv_done_callback s;
     _char_done_callback := _char_done_callback s;
     _read_callback := _read_callback s;
     _write_callback := _write_callback s;
     _notify_callback := _notify_callback s; _conn_handle := _conn_handle s;
     _start_handle := _start_handle s; _end_handle := _end_handle s;
     _value_handle := _value_handle s; search_service := search_service s;
     services := v; characteristics := characteristics s; trace := trace s |}.

Definition set_characteristics (v : option (gmap string (Z * Z * Z))) (s : MiFlora) : MiFlora :=
  {| state := state s; search_addr := search_addr s;
     addr_found := addr_found s; name := name s; rssi := rssi s;
     version := version s; battery := battery s; temp := temp s;
     light := light s; moist := moist s; cond := cond s;
     _addr_type := _addr_type s; _addr := _addr s; _value := _value s;
     _scan_callback := _scan_callback s; _conn_callback := _conn_callback s;
     _serv_done_callback := _serv_done_callback s;
     _char_done_callback := _char_done_callback s;
     _read_callback := _read_callback s;
     _write_callback := _write_callback s;
     _notify_callback := _notify_callback s; _conn_handle := _conn_handle s;
     _start_handle := _start_handle s; _end_handle := _end_handle s;
     _value_handle := _value_handle s; search_service := search_service s;
     services := services s; characteristics := v; trace := trace s |}.

Definition set_trace (v : list effect) (s : MiFlora) : MiFlora :=
  {| state := state s; search_addr := search_addr s;
     addr_found := addr_found s; name := name s; rssi := rssi s;
     version := version s; battery := battery s; temp := temp s;
     light := light s; moist := moist s; cond := cond s;
     _addr_type := _addr_type s; _addr := _addr s; _value := _value s;
     _scan_callback := _scan_callback s; _conn_callback := _conn_callback s;
     _serv_done_callback := _serv_done_callback s;
     _char_done_callback := _char_done_callback s;
     _read_callback := _read_callback s;
     _write_callback := _write_callback s;
     _notify_callback := _notify_callback s; _conn_handle := _conn_handle s;
     _start_handle := _start_handle s; _end_handle := _end_handle s;
     _value_handle := _value_handle s; search_service := search_service s;
     services := services s; characteristics := characteristics s;
     trace := v |}.

(** The six readings, for frame statements. *)
Definition readings (s : MiFlora) :=
  (version s, battery s, temp s, light s, moist s, cond s).

(** The one-shot slots and the persistent one. *)
Definition get_slot (sl : slot) (s : MiFlora) : option callback :=
  match sl with
  | scan_slot => _scan_callback s
  | conn_slot => _conn_callback s
  | serv_done_slot => _serv_done_callback s
  | char_done_slot => _char_done_callback s
  | read_slot => _read_callback s
  | write_slot => _write_callback s
  | notify_slot => _notify_callback s
  end.

(** ** State and exception monad *)

Definition M (A : Type) : Type := MiFlora -> (exn + A) * MiFlora.

Definition ret {A : Type} (x : A) : M A := fun s => (inr x, s).

Definition bind {A B : Type} (m : M A) (k : A -> M B) : M B :=
  fun s =>
    match m s with
    | (inr x, s') => k x s'
    | (inl e, s') => (inl e, s')
    end.

Definition raise {A : Type} (e : exn) : M A := fun s => (inl e, s).

Definition get : M MiFlora := fun s => (inr s, s).

Definition modify (f : MiFlora -> MiFlora) : M unit := fun s => (inr tt, f s).

(** [try: m  except OSError: h] *)
Definition try_except_OSError {A : Type} (m : M A) (h : M A) : M A :=
  fun s =>
    match m s with
    | (inl OSError, s') => h s'
    | r => r
    end.

Declare Scope py_scope.
Delimit Scope py_scope with py.
Notation "x <- m ;; k" := (bind m (fun x => k))
  (at level 100, m at next level, k at level 200, right associativity)
  : py_scope.
Notation "m ;; k" := (bind m (fun _ => k))
  (at level 100, k at level 200, right associativity) : py_scope.
Open Scope py_scope.

Definition log (e : effect) : M unit :=
  modify (fun s => set_trace (trace s ++ [e]) s).

(** An [int] argument of a host call: [None] is refused by the binding
    before the stack sees the call. *)
Definition as_int (x : option Z) : M Z :=
  match x with
  | Some n => ret n
  | None => raise TypeError
  end.

(** ** Host events, as delivered to [_irq(event, data)] *)

Inductive irq_event : Type :=
| IRQ_SCAN_RESULT (addr_type : Z) (addr : list byte) (adv_type rssi : Z)
                  (adv_data : list byte)
| IRQ_SCAN_DONE
| IRQ_PERIPHERAL_CONNECT (conn_handle addr_type : Z) (addr : list byte)
| IRQ_PERIPHERAL_DISCONNECT (conn_handle addr_type : Z) (addr : list byte)
| IRQ_GATTC_SERVICE_RESULT (conn_handle start_handle end_handle : Z)
                           (uuid : string)
| IRQ_GATTC_SERVICE_DONE (conn_handle status : Z)
| IRQ_GATTC_CHARACTERISTIC_RESULT
    (conn_handle def_handle value_handle properties : Z) (uuid : string)
| IRQ_GATTC_CHARACTERISTIC_DONE (conn_handle status : Z)
| IRQ_GATTC_READ_RESULT (conn_handle value_handle : Z) (char_data : list byte)
| IRQ_GATTC_READ_DONE (conn_handle value_handle status : Z)
| IRQ_GATTC_WRITE_DONE (conn_handle value_handle status : Z)
| IRQ_GATTC_NOTIFY (conn_handle value_handle : Z) (notify_data : list byte)
| IRQ_OTHER (event : Z).

Definition event_id (ev : irq_event) : Z :=
  match ev with
  | IRQ_SCAN_RESULT _ _ _ _ _ => _IRQ_SCAN_RESULT
  | IRQ_SCAN_DONE => _IRQ_SCAN_DONE
  | IRQ_PERIPHERAL_CONNECT _ _ _ => _IRQ_PERIPHERAL_CONNECT
  | IRQ_PERIPHERAL_DISCONNECT _ _ _ => _IRQ_PERIPHERAL_DISCONNECT
  | IRQ_GATTC_SERVICE_RESULT _ _ _ _ => _IRQ_GATTC_SERVICE_RESULT
  | IRQ_GATTC_SERVICE_DONE _ _ => _IRQ_GATTC_SERVICE_DONE
  | IRQ_GATTC_CHARACTERISTIC_RESULT _ _ _ _ _ =>
      _IRQ_GATTC_CHARACTERISTIC_RESULT
  | IRQ_GATTC_CHARACTERISTIC_DONE _ _ => _IRQ_GATTC_CHARACTERISTIC_DONE
  | IRQ_GATTC_READ_RESULT _ _ _ => _IRQ_GATTC_READ_RESULT
  | IRQ_GATTC_READ_DONE _ _ _ => _IRQ_GATTC_READ_DONE
  | IRQ_GATTC_WRITE_DONE _ _ _ => _IRQ_GATTC_WRITE_DONE
  | IRQ_GATTC_NOTIFY _ _ _ => _IRQ_GATTC_NOTIFY
  | IRQ_OTHER event => event
  end.

(** ** The class *)

Section Driver.

(** [ble_advertising.decode_name], an external helper. *)
Variable decode_name : list byte -> string.

(** The host stack: does it accept this call, given what happened so far?
    A refused call raises [OSError]. *)
Variable host : list effect -> host_call -> bool.

(** The functions of the application used as callbacks. *)
Variable user : nat -> cb_args -> M unit.

Definition ble (c : host_call) : M unit :=
  s <- get ;;
  let ok := host (trace s) c in
  log (HostCall c ok) ;;
  if ok then ret tt else raise OSError.

Definition _reset : M unit :=
  modify (fun s =>
    {| state := _S_INIT; search_addr := None; addr_found := false;
       name := None; rssi := 0; version := None; battery := None;
       temp := None; light := None; moist := None; cond := None;
       _addr_type := None; _addr := None; _value := None;
       _scan_callback := None; _conn_callback := None;
       _serv_done_callback := None; _char_done_callback := None;
       _read_callback := None; _write_callback := None;
       _notify_callback := None;
       _conn_handle := None; _start_handle := None; _end_handle := None;
       _value_handle := None;
       search_service := search_service s; services := services s;
       characteristics := characteristics s; trace := trace s |}).

(** [self.debug(...)]: the class defines [_debug] only, so the attribute
    lookup raises. *)
Definition self_debug : M unit := raise AttributeError.

(** *** Status query *)

Definition is_connected (s : MiFlora) : bool :=
  match _conn_handle s with
  | Some _ => true
  | None => false
  end.

(** *** Action trigger methods *)

Definition scan (callback : option callback) : M unit :=
  modify (set__addr_type None) ;;
  modify (set__addr None) ;;
  modify (set__scan_callback callback) ;;
  try_except_OSError (ble (ble_gap_scan 2000 30000 30000 true)) (ret tt).

Definition gap_connect (addr_type : option Z) (addr : option (list byte))
    (callback : option callback) : M bool :=
  (match addr_type, addr with
   | Some _, Some _ =>
       modify (set__addr_type addr_type) ;; modify (set__addr addr)
   | _, _ => ret tt
   end) ;;
  modify (set__conn_callback callback) ;;
  s <- get ;;
  match _addr_type s, _addr s with
  | Some t, Some a =>
      try_except_OSError (ble (ble_gap_connect t a) ;; ret true) (ret false)
  | _, _ => self_debug ;; ret false
  end.

Definition disconnect : M unit :=
  s <- get ;;
  if negb (truthy_int (_conn_handle s)) then ret tt
  else
    try_except_OSError
      (h <- as_int (_conn_handle s) ;; ble (ble_gap_disconnect h)) (ret tt) ;;
    _reset.

Definition discover_services (callback : option callback) : M unit :=
  modify (set_services (Some ∅)) ;;
  s <- get ;;
  if negb (is_connected s) then ret tt
  else
    modify (set__serv_done_callback callback) ;;
    try_except_OSError
      (h <- as_int (_conn_handle s) ;; ble (ble_gattc_discover_services h))
      (ret tt).

Definition discover_characteristics (start_handle end_handle : Z)
    (callback : option callback) : M unit :=
  modify (set_characteristics (Some ∅)) ;;
  s <- get ;;
  if negb (is_connected s) then ret tt
  else
    modify (set__char_done_callback callback) ;;
    try_except_OSError
      (h <- as_int (_conn_handle s) ;;
       ble (ble_gattc_discover_characteristics h start_handle end_handle))
      (ret tt).

Definition gattc_read : M unit :=
  s <- get ;;
  h <- as_int (_conn_handle s) ;;
  v <- as_int (_value_handle s) ;;
  ble (ble_gattc_read h v).

Definition read (callback : option callback) : M unit :=
  s <- get ;;
  if negb (is_connected s) then ret tt
  else
    modify (set__read_callback callback) ;;
    try_except_OSError gattc_read (ret tt).

Definition read_firmware (callback : option callback) : M unit :=
  s <- get ;;
  if negb (is_connected s) then ret tt
  else
    modify (set__read_callback callback) ;;
    modify (set__value_handle (Some _HANDLE_READ_VERSION_BATTERY)) ;;
    try_except_OSError gattc_read (ret tt).

Definition mode_change (callback : option callback) : M unit :=
  modify (set__write_callback callback) ;;
  modify (set__value_handle (Some _HANDLE_WRITE_MODE_CHANGE)) ;;
  try_except_OSError
    (s <- get ;;
     h <- as_int (_conn_handle s) ;;
     v <- as_int (_value_handle s) ;;
     ble (ble_gattc_write h v _DATA_MODE_CHANGE 1))
    (ret tt).

Definition read_sensor (callback : option callback) : M unit :=
  s <- get ;;
  if negb (is_connected s) then ret tt
  else
    modify (set__read_callback callback) ;;
    modify (set__value_handle (Some _HANDLE_READ_SENSOR_DATA)) ;;
    try_except_OSError gattc_read (ret tt).

(** *** Callback methods *)

Definition scan_done (addr_type : option Z) (addr : option (list byte))
    (name : option string) : M unit :=
  modify (set_state _S_SCAN_DONE).

(** [bytes(data)] *)
Definition to_bytes (data : option (list byte)) : M (list byte) :=
  match data with
  | Some b => ret b
  | None => raise TypeError
  end.

(** [data[i]] *)
Definition index (data : list byte) (i : nat) : M Z :=
  match nth_error data i with
  | Some b => ret (byte_to_Z b)
  | None => raise IndexError
  end.

Definition unpack (f : struct_fmt) (buf : list byte) : M Z :=
  match struct_unpack f buf with
  | inr v => ret v
  | inl e => raise e
  end.

(** [str(buf, 'UTF-8')] *)
Definition to_str (buf : list byte) : M string :=
  match str_utf8 buf with
  | inr v => ret v
  | inl e => raise e
  end.

Definition read_firmware_done (data : option (list byte)) : M unit :=
  data <- to_bytes data ;;
  b <- index data 0 ;;
  modify (set_battery (Some b)) ;;
  v <- to_str (slice 2 7 data) ;;
  modify (set_version (Some v)) ;;
  modify (set_state _S_READ_FIRMWARE_DONE).

Definition mode_change_done : M unit :=
  modify (set_state _S_MODE_CHANGE_DONE).

Definition read_sensor_done (data : option (list byte)) : M unit :=
  data <- to_bytes data ;;
  temp <- unpack fmt_h (slice 0 2 data) ;;
  light <- unpack fmt_I (slice 3 7 data) ;;
  moist <- unpack fmt_B (slice 7 8 data) ;;
  cond <- unpack fmt_h (slice 8 10 data) ;;
  modify (set_temp (Some (temp # 10)%Q)) ;;
  modify (set_light (Some light)) ;;
  modify (set_moist (Some moist)) ;;
  modify (set_cond (Some cond)) ;;
  modify (set_state _S_READ_SENSOR_DONE).

(** *** Helper methods *)

Definition on_notify (callback : option callback) : M unit :=
  modify (set__notify_callback callback).

Definition _update_value (data : list byte) : M unit :=
  modify (set__value (Some data)).

(** Calling what a slot holds: a bound method runs its body when the
    number of arguments fits, and raises [TypeError] otherwise. *)
Definition call (cb : callback) (args : cb_args) : M unit :=
  match cb, args with
  | self_scan_done, Args3 t a n => scan_done t a n
  | self_read_firmware_done, Args1 d => read_firmware_done d
  | self_mode_change_done, Args0 => mode_change_done
  | self_read_sensor_done, Args1 d => read_sensor_done d
  | py_function id, _ => user id args
  | _, _ => raise TypeError
  end.

Definition invoke (sl : slot) (cb : callback) (args : cb_args) : M unit :=
  log (Invoked sl cb args) ;; call cb args.

(** *** The interrupt request handler *)

Definition _irq (ev : irq_event) : M unit :=
  match ev with
  | IRQ_SCAN_RESULT addr_type addr adv_type rssi adv_data =>
      let _name :=
        match decode_name adv_data with
        | EmptyString => "?"%string
        | n => n
        end in
      s <- get ;;
      if ((adv_type =? _ADV_IND) || (adv_type =? _ADV_DIRECT_IND)
          || (adv_type =? _ADV_SCAN_RSP))
         && eq_opt_bytes addr (search_addr s)
      then
        modify (set__addr_type (Some addr_type)) ;;
        modify (set_rssi rssi) ;;
        modify (set_addr_found true) ;;
        modify (set__addr (Some addr)) ;;
        (if negb (String.eqb _name "?") then modify (set_name (Some _name))
         else ret tt) ;;
        ble ble_gap_scan_stop
      else ret tt

  | IRQ_SCAN_DONE =>
      s <- get ;;
      match _scan_callback s with
      | Some cb =>
          if truthy_bytes (_addr s) then
            invoke scan_slot cb (Args3 (_addr_type s) (_addr s) (name s)) ;;
            modify (set__scan_callback None) ;;
            if negb (AUTO_MODE =? 0) then
              s <- get ;;
              gap_connect (_addr_type s) (_addr s) None ;; ret tt
            else ret tt
          else
            invoke scan_slot cb (Args3 None None None)
      | None => ret tt
      end

  | IRQ_PERIPHERAL_CONNECT conn_handle addr_type addr =>
      s <- get ;;
      if eq_opt_int addr_type (_addr_type s) && eq_opt_bytes addr (_addr s)
      then
        modify (set__conn_handle (Some conn_handle)) ;;
        (match _conn_callback s with
         | Some cb =>
             invoke conn_slot cb Args0 ;; modify (set__conn_callback None)
         | None => ret tt
         end) ;;
        if negb (AUTO_MODE =? 0) then
          if _DISCOVER_SERVICES then discover_services None
          else read_firmware (Some self_read_firmware_done)
        else ret tt
      else ret tt

  | IRQ_PERIPHERAL_DISCONNECT conn_handle _ _ =>
      s <- get ;;
      if eq_opt_int conn_handle (_conn_handle s) then _reset else ret tt

  | IRQ_GATTC_SERVICE_RESULT conn_handle start_handle end_handle uuid =>
      s <- get ;;
      if eq_opt_int conn_handle (_conn_handle s) then
        (match services s with
         | Some d =>
             modify (set_services (Some (<[uuid := (start_handle, end_handle)]> d)))
         | None => raise AttributeError
         end) ;;
        match search_service s with
        | Some wanted =>
            if String.eqb uuid wanted then
              modify (set__start_handle (Some start_handle)) ;;
              modify (set__end_handle (Some end_handle))
            else ret tt
        | None => raise AttributeError
        end
      else ret tt

  | IRQ_GATTC_SERVICE_DONE _ _ =>
      modify (set_state _S_SERVICE_DONE) ;;
      s <- get ;;
      (match _serv_done_callback s with
       | Some cb =>
           invoke serv_done_slot cb Args0 ;;
           modify (set__serv_done_callback None)
       | None => ret tt
       end) ;;
      if negb (AUTO_MODE =? 0) then
        if _DISCOVER_CHARACTERISTICS then
          s <- get ;;
          if truthy_int (_start_handle s) && truthy_int (_end_handle s) then
            sh <- as_int (_start_handle s) ;;
            eh <- as_int (_end_handle s) ;;
            discover_characteristics sh eh None
          else ret tt
        else read_firmware (Some self_read_firmware_done)
      else ret tt

  | IRQ_GATTC_CHARACTERISTIC_RESULT conn_handle def_handle value_handle
                                    properties uuid =>
      s <- get ;;
      if eq_opt_int conn_handle (_conn_handle s) then
        match characteristics s with
        | Some d =>
            modify (set_characteristics
                      (Some (<[uuid := (def_handle, value_handle, properties)]> d)))
        | None => raise AttributeError
        end
      else ret tt

  | IRQ_GATTC_CHARACTERISTIC_DONE _ _ =>
      modify (set_state _S_CHARACTERISTIC_DONE) ;;
      s <- get ;;
      (match _char_done_callback s with
       | Some cb =>
           invoke char_done_slot cb Args0 ;;
           modify (set__char_done_callback None)
       | None => ret tt
       end) ;;
      if negb (AUTO_MODE =? 0) then
        read_firmware (Some self_read_firmware_done)
      else ret tt

  | IRQ_GATTC_READ_RESULT conn_handle value_handle char_data =>
      s <- get ;;
      if eq_opt_int conn_handle (_conn_handle s)
         && eq_opt_int value_handle (_value_handle s)
      then
        _update_value char_data ;;
        match _read_callback s with
        | Some cb =>
            s <- get ;;
            invoke read_slot cb (Args1 (_value s)) ;;
            modify (set__read_callback None)
        | None => ret tt
        end
      else ret tt

  | IRQ_GATTC_READ_DONE conn_handle value_handle status =>
      s <- get ;;
      if negb (AUTO_MODE =? 0) && (state s =? _S_READ_FIRMWARE_DONE) then
        mode_change (Some self_mode_change_done)
      else ret tt

  | IRQ_GATTC_WRITE_DONE conn_handle value_handle status =>
      s <- get ;;
      if eq_opt_int conn_handle (_conn_handle s)
         && eq_opt_int value_handle (_value_handle s)
      then
        (match _write_callback s with
         | Some cb =>
             invoke write_slot cb Args0 ;; modify (set__write_callback None)
         | None => ret tt
         end) ;;
        s <- get ;;
        if negb (AUTO_MODE =? 0) && (state s =? _S_MODE_CHANGE_DONE) then
          read_sensor (Some self_read_sensor_done)
        else ret tt
      else ret tt

  | IRQ_GATTC_NOTIFY conn_handle value_handle notify_data =>
      s <- get ;;
      if eq_opt_int conn_handle (_conn_handle s)
         && eq_opt_int value_handle (_value_handle s)
      then
        _update_value notify_data ;;
        match _notify_callback s with
        | Some cb =>
            s <- get ;;
            invoke notify_slot cb (Args1 (_value s))
        | None => ret tt
        end
      else ret tt

  | IRQ_OTHER _ => ret tt
  end.

End Driver.

(** The object as the constructor leaves it: every attribute as [_reset]
    sets it, the attributes that [_reset] does not know still missing. *)
Definition __init__ : MiFlora :=
  {| state := _S_INIT; search_addr := None; addr_found := false;
     name := None; rssi := 0; version := None; battery := None;
     temp := None; light := None; moist := None; cond := None;
     _addr_type := None; _addr := None; _value := None;
     _scan_callback := None; _conn_callback := None;
     _serv_done_callback := None; _char_done_callback := None;
     _read_callback := None; _write_callback := None;
     _notify_callback := None;
     _conn_handle := None; _start_handle := None; _end_handle := None;
     _value_handle := None;
     search_service := None; services := None; characteristics := None;
     trace := [] |}.

(** ** The clock

    Time is counted in milliseconds on an ideal clock, as an integer.
    [time.ticks_ms()] is that time modulo the ticks period, and
    [time.ticks_diff] is the difference of two such readings brought back
    into [-period/2, period/2 - 1], as in MicroPython's [extmod/modtime.c].
    [time.sleep_ms d] takes [d] milliseconds and everything else takes
    none. *)

Definition _TICKS_PERIOD : Z := 2 ^ 30.

Definition ticks_ms (now : Z) : Z := now mod _TICKS_PERIOD.

Definition ticks_diff (ticks1 ticks2 : Z) : Z :=
  (ticks1 - ticks2 + _TICKS_PERIOD / 2) mod _TICKS_PERIOD - _TICKS_PERIOD / 2.

(** ** The timeout poller

    The interrupt handlers run while the caller sleeps: what the caller
    sees of them is the value of [self.state] at the time it reads it.  The
    loop need not end, so it is run on fuel, one unit per test of the loop
    condition: [None] says that the fuel did not suffice, [Some (b, t)] that
    the method returned [b] at time [t]. *)

Section Poller.

Variable state_at : Z -> Z.

(** The loop of [wait_for], entered at time [now] with the reading [t0] of
    the ticks counter taken before the loop. *)
Fixpoint wait_for_loop (fuel : nat) (state timeout_ms t0 now : Z)
  : option (bool * Z) :=
  match fuel with
  | O => None
  | S fuel' =>
      if ticks_diff (ticks_ms now) t0 <? timeout_ms then
        if state_at now =? state then Some (true, now)
        else wait_for_loop fuel' state timeout_ms t0 (now + _T_WAIT)
      else Some (false, now)
  end.

(** [wait_for(state, timeout_ms)] called at time [now]. *)
Definition wait_for (fuel : nat) (state timeout_ms now : Z)
  : option (bool * Z) :=
  wait_for_loop fuel state timeout_ms (ticks_ms now) now.

End Poller.

(** ** The connection poller

    [wait_for_connection] is the same loop as [wait_for] on the result of
    [is_connected()], read at the time of each poll. *)

Section PollerConnection.

Variable connected_at : Z -> bool.

Fixpoint wait_for_connection_loop (fuel : nat) (status : bool)
    (timeout_ms t0 now : Z) : option (bool * Z) :=
  match fuel with
  | O => None
  | S fuel' =>
      if ticks_diff (ticks_ms now) t0 <? timeout_ms then
        if Bool.eqb (connected_at now) status then Some (true, now)
        else wait_for_connection_loop fuel' status timeout_ms t0
               (now + _T_WAIT)
      else Some (false, now)
  end.

Definition wait_for_connection (fuel : nat) (status : bool)
    (timeout_ms now : Z) : option (bool * Z) :=
  wait_for_connection_loop fuel status timeout_ms (ticks_ms now) now.

End PollerConnection.

(** * Vocabulary of the statements *)

(** [data[i]] as a number, for a position known to exist. *)
Definition byte_at (data : list byte) (i : nat) : Z :=
  byte_to_Z (nth i data x00).

(** The payloads of the two decoding examples. *)
Definition sensor_example : list byte :=
  [x64; x00; x00; x0a; x00; x00; x00; x2d; x0f; x00].

Definition firmware_example : list byte :=
  [x37; x00; x33; x2e; x32; x2e; x32].

(** Payloads shorter than the layouts. *)
Definition short_sensor_example : list byte := [x64; x00; x00; x0a; x00].


(** Text of 7-bit characters only. *)
Definition is_7bit (b : list byte) : bool :=
  forallb (fun c => byte_to_Z c <? 0x80) b.




(** An object holding readings of an earlier session. *)
Definition earlier_readings : MiFlora :=
  set_cond (Some 120)
    (set_moist (Some 30)
       (set_light (Some 500)
          (set_temp (Some (215 # 10)%Q)
             (set_version (Some "3.1.8"%string)
                (set_battery (Some 80) __init__))))).

(** Attributes that the application assigns from outside the class. *)
Definition set_search_addr (v : option (list byte)) (s : MiFlora) : MiFlora :=
  {| state := state s; search_addr := v; addr_found := addr_found s;
     name := name s; rssi := rssi s; version := version s;
     battery := battery s; temp := temp s; light := light s;
     moist := moist s; cond := cond s; _addr_type := _addr_type s;
     _addr := _addr s; _value := _value s;
     _scan_callback := _scan_callback s; _conn_callback := _conn_callback s;
     _serv_done_callback := _serv_done_callback s;
     _char_done_callback := _char_done_callback s;
     _read_callback := _read_callback s;
     _write_callback := _write_callback s;
     _notify_callback := _notify_callback s; _conn_handle := _conn_handle s;
     _start_handle := _start_handle s; _end_handle := _end_handle s;
     _value_handle := _value_handle s; search_service := search_service s;
     services := services s; characteristics := characteristics s;
     trace := trace s |}.

Definition set_search_service (v : option string) (s : MiFlora) : MiFlora :=
  {| state := state s; search_addr := search_addr s;
     addr_found := addr_found s; name := name s; rssi := rssi s;
     version := version s; battery := battery s; temp := temp s;
     light := light s; moist := moist s; cond := cond s;
     _addr_type := _addr_type s; _addr := _addr s; _value := _value s;
     _scan_callback := _scan_callback s; _conn_callback := _conn_callback s;
     _serv_done_callback := _serv_done_callback s;
     _char_done_callback := _char_done_callback s;
     _read_callback := _read_callback s;
     _write_callback := _write_callback s;
     _notify_callback := _notify_callback s; _conn_handle := _conn_handle s;
     _start_handle := _start_handle s; _end_handle := _end_handle s;
     _value_handle := _value_handle s; search_service := v;
     services := services s; characteristics := characteristics s;
     trace := trace s |}.

(** A host stack that accepts every call, an advertising decoder that finds
    no name, and an application whose functions do nothing. *)
Definition accept_all (_ : list effect) (_ : host_call) : bool := true.

Definition no_name (_ : list byte) : string := EmptyString.

Definition idle (_ : nat) (_ : cb_args) : M unit := ret tt.

(** The address of the example sensor in [miflora_sensors]. *)
Definition sensor_addr : list byte := [xc4; x7c; x8d; x66; xa5; x3d].

(** Connected on handle 1, firmware already read (handle 0x38). *)
Definition firmware_was_read : MiFlora :=
  set_state _S_READ_FIRMWARE_DONE
    (set__value_handle (Some _HANDLE_READ_VERSION_BATTERY)
       (set__conn_handle (Some 1) __init__)).

(** A stored connection handle equal to 0, with readings present. *)
Definition connected_on_handle_0 : MiFlora :=
  set__conn_handle (Some 0) earlier_readings.

Definition connected_on_handle_1 : MiFlora :=
  set__conn_handle (Some 1) earlier_readings.

(** The callback invocations recorded in a trace. *)
Definition is_invoked (e : effect) : bool :=
  match e with
  | Invoked _ _ _ => true
  | HostCall _ _ => false
  end.

Definition invocations (tr : list effect) : list effect :=
  List.filter is_invoked tr.

(** The one-shot slot that an event completes. *)
Definition one_shot_slot (ev : irq_event) : option slot :=
  match ev with
  | IRQ_SCAN_DONE => Some scan_slot
  | IRQ_PERIPHERAL_CONNECT _ _ _ => Some conn_slot
  | IRQ_GATTC_SERVICE_DONE _ _ => Some serv_done_slot
  | IRQ_GATTC_CHARACTERISTIC_DONE _ _ => Some char_done_slot
  | IRQ_GATTC_READ_RESULT _ _ _ => Some read_slot
  | IRQ_GATTC_WRITE_DONE _ _ _ => Some write_slot
  | _ => None
  end.

(** The condition under which the handler of such an event goes on to its
    callback and clears the slot after it: a device was found, the address
    matches, the handles match. *)
Definition delivers (ev : irq_event) (s : MiFlora) : bool :=
  match ev with
  | IRQ_SCAN_DONE => truthy_bytes (_addr s)
  | IRQ_PERIPHERAL_CONNECT _ t a =>
      eq_opt_int t (_addr_type s) && eq_opt_bytes a (_addr s)
  | IRQ_GATTC_SERVICE_DONE _ _ | IRQ_GATTC_CHARACTERISTIC_DONE _ _ => true
  | IRQ_GATTC_READ_RESULT c v _ | IRQ_GATTC_WRITE_DONE c v _ =>
      eq_opt_int c (_conn_handle s) && eq_opt_int v (_value_handle s)
  | _ => false
  end.

(** The data of the event names a connection handle, or a connection and an
    attribute handle, other than the ones the object tracks. *)
Definition foreign (ev : irq_event) (s : MiFlora) : bool :=
  match ev with
  | IRQ_PERIPHERAL_DISCONNECT c _ _
  | IRQ_GATTC_SERVICE_RESULT c _ _ _
  | IRQ_GATTC_SERVICE_DONE c _
  | IRQ_GATTC_CHARACTERISTIC_RESULT c _ _ _ _
  | IRQ_GATTC_CHARACTERISTIC_DONE c _ =>
      negb (eq_opt_int c (_conn_handle s))
  | IRQ_GATTC_READ_RESULT c v _
  | IRQ_GATTC_READ_DONE c v _
  | IRQ_GATTC_WRITE_DONE c v _
  | IRQ_GATTC_NOTIFY c v _ =>
      negb (eq_opt_int c (_conn_handle s) && eq_opt_int v (_value_handle s))
  | _ => false
  end.

(** The events whose handler compares the handles of its data. *)
Definition compares_handles (ev : irq_event) : bool :=
  match ev with
  | IRQ_PERIPHERAL_DISCONNECT _ _ _
  | IRQ_GATTC_SERVICE_RESULT _ _ _ _
  | IRQ_GATTC_CHARACTERISTIC_RESULT _ _ _ _ _
  | IRQ_GATTC_READ_RESULT _ _ _
  | IRQ_GATTC_WRITE_DONE _ _ _
  | IRQ_GATTC_NOTIFY _ _ _ => true
  | _ => false
  end.

(** The slots hold nothing but what auto mode itself puts there. *)
Definition auto_callbacks (s : MiFlora) : bool :=
  match _scan_callback s with
  | None | Some self_scan_done => true
  | _ => false
  end
  && match _conn_callback s, _serv_done_callback s, _char_done_callback s,
           _notify_callback s with
     | None, None, None, None => true
     | _, _, _, _ => false
     end
  && match _read_callback s with
     | None | Some self_read_firmware_done | Some self_read_sensor_done => true
     | _ => false
     end
  && match _write_callback s with
     | None | Some self_mode_change_done => true
     | _ => false
     end.

(** The stage that an event stands for in the state machine. *)
Definition stage (ev : irq_event) : option Z :=
  match ev with
  | IRQ_SCAN_DONE => Some _S_SCAN_DONE
  | IRQ_GATTC_SERVICE_DONE _ _ => Some _S_SERVICE_DONE
  | IRQ_GATTC_CHARACTERISTIC_DONE _ _ => Some _S_CHARACTERISTIC_DONE
  | IRQ_GATTC_READ_RESULT _ _ _ => Some _S_READ_FIRMWARE_DONE
  | IRQ_GATTC_WRITE_DONE _ _ _ => Some _S_MODE_CHANGE_DONE
  | _ => None
  end.

Definition floor (ev : irq_event) (st : Z) : Z :=
  match stage ev with
  | Some k => Z.min st k
  | None => st
  end.

Definition lower_bound (evs : list irq_event) (st : Z) : Z :=
  fold_left (fun st ev => floor ev st) evs st.

Definition is_disconnect (ev : irq_event) : bool :=
  match ev with
  | IRQ_PERIPHERAL_DISCONNECT _ _ _ => true
  | _ => false
  end.

Section Delivery.

Variable decode_name : list byte -> string.
Variable host : list effect -> host_call -> bool.
Variable user : nat -> cb_args -> M unit.

(** One event delivered to the object.  An exception that leaves the handler
    is reported by the host and the object stays as the handler left it. *)
Definition deliver (s : MiFlora) (ev : irq_event) : MiFlora :=
  snd (_irq decode_name host user ev s).

(** Events delivered one at a time. *)
Definition run (evs : list irq_event) (s : MiFlora) : MiFlora :=
  fold_left deliver evs s.

End Delivery.

(** *** Example sessions *)

(** The application looks for the example sensor. *)
Definition searching : MiFlora := set_search_addr (Some sensor_addr) __init__.

(** The advertisement of the example sensor. *)
Definition sensor_found : irq_event :=
  IRQ_SCAN_RESULT 0 sensor_addr _ADV_IND (-60) [].

(** The events of one complete session in auto mode, connection handle 1. *)
Definition happy_path : list irq_event :=
  [sensor_found;
   IRQ_SCAN_DONE;
   IRQ_PERIPHERAL_CONNECT 1 0 sensor_addr;
   IRQ_GATTC_READ_RESULT 1 _HANDLE_READ_VERSION_BATTERY firmware_example;
   IRQ_GATTC_READ_DONE 1 _HANDLE_READ_VERSION_BATTERY 0;
   IRQ_GATTC_WRITE_DONE 1 _HANDLE_WRITE_MODE_CHANGE 0;
   IRQ_GATTC_READ_RESULT 1 _HANDLE_READ_SENSOR_DATA sensor_example;
   IRQ_GATTC_READ_DONE 1 _HANDLE_READ_SENSOR_DATA 0].

(** [scan(callback=self.scan_done)], as [demo_auto] starts a session. *)
Definition scan_started : MiFlora :=
  snd (scan accept_all (Some self_scan_done) searching).

Definition sensor_was_read : MiFlora :=
  run no_name accept_all idle happy_path scan_started.

(** The same session with [discover_services()] called by the application
    right after the connection was made: the sensor is read while the
    discovery is still under way. *)
Definition sensor_was_read_during_discovery : MiFlora :=
  run no_name accept_all idle (skipn 3 happy_path)
    (snd (discover_services accept_all None
            (run no_name accept_all idle (firstn 3 happy_path)
               scan_started))).



(** Connected on handle 1, the firmware read requested in auto mode. *)
Definition firmware_requested : MiFlora :=
  set__read_callback (Some self_read_firmware_done)
    (set__value_handle (Some _HANDLE_READ_VERSION_BATTERY)
       (set__conn_handle (Some 1) __init__)).

(** An application whose function 0 reads the attribute again, with its
    function 1 as the callback of that read. *)
Definition reads_again (id : nat) (args : cb_args) : M unit :=
  match id with
  | O => read accept_all (Some (py_function 1))
  | S _ => ret tt
  end.

(** Connected on handle 1, a read of attribute 0x38 requested with
    function 0 as its callback. *)
Definition read_requested : MiFlora :=
  set__read_callback (Some (py_function 0))
    (set__value_handle (Some _HANDLE_READ_VERSION_BATTERY)
       (set__conn_handle (Some 1) __init__)).

(** *** The pollers

    Both pollers are the same loop around a test of their own. *)
Fixpoint poll_loop (hit : Z -> bool) (fuel : nat) (timeout_ms t0 now : Z)
  : option (bool * Z) :=
  match fuel with
  | O => None
  | S fuel' =>
      if ticks_diff (ticks_ms now) t0 <? timeout_ms then
        if hit now then Some (true, now)
        else poll_loop hit fuel' timeout_ms t0 (now + _T_WAIT)
      else Some (false, now)
  end.

(** The longest timeout whose deadline the ticks counter can show at a
    poll: with a longer one a poll can come after the difference of the
    readings has wrapped around. *)
Definition _TIMEOUT_MAX : Z := _TICKS_PERIOD / 2 - _T_WAIT.

(** *** Example histories of [self.state] for the poller *)

(** The sensor was read before the wait starts. *)
Definition already_read (t : Z) : Z := _S_READ_SENSOR_DONE.

(** The sensor is read 220 ms after the wait starts. *)
Definition read_after_220 (t : Z) : Z :=
  if t <? 220 then _S_MODE_CHANGE_DONE else _S_READ_SENSOR_DONE.

(** The sensor is never read. *)
Definition never_read (t : Z) : Z := _S_MODE_CHANGE_DONE.

(** The connection comes 150 ms after the wait starts. *)
Definition connected_after_150 (t : Z) : bool := 150 <=? t.

(** *** Vocabulary of the further properties *)

(** The service-result events of one discovery on connection [h], from the
    list of the services found, each with its handle range. *)
Definition service_results (h : Z) (found : list (string * (Z * Z)))
  : list irq_event :=
  map (fun r => IRQ_GATTC_SERVICE_RESULT h (fst (snd r)) (snd (snd r)) (fst r))
    found.

(** The notifications of attribute [v] on connection [h], one per payload. *)
Definition notifications (h v : Z) (payloads : list (list byte))
  : list irq_event :=
  map (fun d => IRQ_GATTC_NOTIFY h v d) payloads.

(** Connected on handle 1, about to discover the services, the application
    looking for the generic access service. *)
Definition discovering : MiFlora :=
  set_services (Some ∅)
    (set_search_service (Some "UUID(0x1800)"%string)
       (set__conn_handle (Some 1) __init__)).

(** Connected on handle 1, the sensor data (attribute 0x35) requested
    last. *)
Definition subscribed : MiFlora :=
  set__value_handle (Some _HANDLE_READ_SENSOR_DATA)
    (set__conn_handle (Some 1) __init__).

(** A cached address comes with its address type. *)
Definition addr_paired (s : MiFlora) : bool :=
  match _addr s, _addr_type s with
  | Some _, None => false
  | _, _ => true
  end.

(** The state says that the firmware was read only on a connected object. *)
Definition firmware_read_connected (s : MiFlora) : bool :=
  implb (state s =? _S_READ_FIRMWARE_DONE) (is_connected s).

(** What a session in auto mode keeps true of the object. *)
Definition auto_session (s : MiFlora) : bool :=
  auto_callbacks s && addr_paired s && firmware_read_connected s.

(** The exceptions that can leave the handler of an event in such a session. *)
Definition may_raise (ev : irq_event) : list exn :=
  match ev with
  | IRQ_SCAN_RESULT _ _ _ _ _ => [OSError]
  | IRQ_GATTC_SERVICE_RESULT _ _ _ _
  | IRQ_GATTC_CHARACTERISTIC_RESULT _ _ _ _ _ => [AttributeError]
  | IRQ_GATTC_READ_RESULT _ _ _ => [IndexError; ValueError; UnicodeError]
  | _ => []
  end.

(** The requests sent to the host stack, accepted or not, in order. *)
Definition requests (tr : list effect) : list host_call :=
  List.flat_map (fun e => match e with
                          | HostCall c _ => [c]
                          | Invoked _ _ _ => []
                          end) tr.

Arguments requests : simpl never.

(** The events of one session in auto mode, as the host stack delivers them
    when every request succeeds: the advertisement of the device, the end of
    the scan, the connection on handle [h], the firmware payload, the
    completion of the mode change and the sensor payload. *)
Definition session (addr_type h strength : Z) (addr adv_data fw d : list byte)
  : list irq_event :=
  [IRQ_SCAN_RESULT addr_type addr _ADV_IND strength adv_data;
   IRQ_SCAN_DONE;
   IRQ_PERIPHERAL_CONNECT h addr_type addr;
   IRQ_GATTC_READ_RESULT h _HANDLE_READ_VERSION_BATTERY fw;
   IRQ_GATTC_READ_DONE h _HANDLE_READ_VERSION_BATTERY 0;
   IRQ_GATTC_WRITE_DONE h _HANDLE_WRITE_MODE_CHANGE 0;
   IRQ_GATTC_READ_RESULT h _HANDLE_READ_SENSOR_DATA d;
   IRQ_GATTC_READ_DONE h _HANDLE_READ_SENSOR_DATA 0].

(** * Properties *)

(** ** Bytes and [struct.unpack] *)

Lemma byte_to_Z_range (b : byte) : 0 <= byte_to_Z b < 256.
Proof.
  unfold byte_to_Z. pose proof (Byte.to_N_bounded b) as Hb.
  split; [apply N2Z.is_nonneg | lia].
Qed.

Lemma to_signed_16_spec (u : Z) :
  0 <= u < 65536 ->
  -32768 <= to_signed 16 u < 32768 /\ to_signed 16 u mod 65536 = u.
Proof.
  intros Hu. unfold to_signed.
  change (2 ^ (16 - 1)) with 32768. change (2 ^ 16) with 65536.
  destruct (Z.ltb_spec u 32768) as [Hlt | Hge].
  - split; [lia | apply Z.mod_small; lia].
  - split; [lia |].
    replace (u - 65536) with (u + (-1) * 65536) by lia.
    rewrite Z_mod_plus_full. apply Z.mod_small. lia.
Qed.

Lemma struct_unpack_short (f : struct_fmt) (buf : list byte) :
  (length buf < calcsize f)%nat -> struct_unpack f buf = inl ValueError.
Proof.
  intros Hlen. unfold struct_unpack.
  destruct (Nat.ltb_spec (length buf) (calcsize f)); [reflexivity | lia].
Qed.

(** ** [str(b, 'UTF-8')] *)

Lemma utf8_check_7bit (b : list byte) : is_7bit b = true -> utf8_check b = true.
Proof.
  unfold utf8_check. induction b as [|c b IH]; [reflexivity |].
  cbn [is_7bit forallb utf8_check_from]. intros H.
  apply andb_prop in H as [Hc Hb]. rewrite Hc. exact (IH Hb).
Qed.

Lemma str_utf8_7bit (b : list byte) :
  is_7bit b = true -> str_utf8 b = inr (String.string_of_list_byte b).
Proof. intros H. unfold str_utf8. rewrite (utf8_check_7bit b H). reflexivity. Qed.


Lemma str_utf8_raises (b : list byte) (e : exn) :
  str_utf8 b = inl e -> e = UnicodeError.
Proof. unfold str_utf8. destruct (utf8_check b); congruence. Qed.

Lemma str_utf8_bytes (b : list byte) (v : string) :
  str_utf8 b = inr v -> String.list_byte_of_string v = b.
Proof.
  unfold str_utf8. destruct (utf8_check b); [| discriminate].
  intros [= <-]. apply String.list_byte_of_string_of_list_byte.
Qed.


(** ** C4: the sensor payload *)

(** C4. A sensor payload of at least 10 bytes is decoded by
    [read_sensor_done] without error: the temperature is the signed 16-bit
    little-endian number at bytes 0-1 divided by ten, the light the unsigned
    32-bit little-endian number at bytes 3-6, the moisture byte 7, the
    conductivity the signed 16-bit little-endian number at bytes 8-9, and the
    state becomes [_S_READ_SENSOR_DONE]; the other attributes keep their
    values.  The example payload gives 10.0, 10, 45 and 15. *)
Theorem C4_read_sensor_done_decodes :
  (forall (data : list byte) (s : MiFlora),
      (10 <= length data)%nat ->
      exists (t l m c : Z) (s' : MiFlora),
        read_sensor_done (Some data) s = (inr tt, s')
        /\ temp s' = Some (t # 10)%Q /\ light s' = Some l
        /\ moist s' = Some m /\ cond s' = Some c
        /\ state s' = _S_READ_SENSOR_DONE
        /\ (-32768 <= t < 32768
            /\ t mod 65536 = byte_at data 0 + 256 * byte_at data 1)
        /\ (0 <= l < 2 ^ 32
            /\ l = byte_at data 3 + 2 ^ 8 * byte_at data 4
                   + 2 ^ 16 * byte_at data 5 + 2 ^ 24 * byte_at data 6)
        /\ (0 <= m < 256 /\ m = byte_at data 7)
        /\ (-32768 <= c < 32768
            /\ c mod 65536 = byte_at data 8 + 256 * byte_at data 9)
        /\ version s' = version s /\ battery s' = battery s
        /\ trace s' = trace s
        /\ (forall sl, get_slot sl s' = get_slot sl s))
  /\ (forall s : MiFlora,
        exists s',
          read_sensor_done (Some sensor_example) s = (inr tt, s')
          /\ temp s' = Some (100 # 10)%Q /\ (100 # 10 == 10)%Q
          /\ light s' = Some 10 /\ moist s' = Some 45 /\ cond s' = Some 15
          /\ state s' = _S_READ_SENSOR_DONE).
Proof.
  split.
  - intros data s Hlen.
    destruct data as [|b0 [|b1 [|b2 [|b3 [|b4 [|b5 [|b6 [|b7 [|b8 [|b9 rest]]]]]]]]]];
      simpl in Hlen; try lia.
    pose proof (byte_to_Z_range b0). pose proof (byte_to_Z_range b1).
    pose proof (byte_to_Z_range b3). pose proof (byte_to_Z_range b4).
    pose proof (byte_to_Z_range b5). pose proof (byte_to_Z_range b6).
    pose proof (byte_to_Z_range b7).
    pose proof (byte_to_Z_range b8). pose proof (byte_to_Z_range b9).
    destruct (to_signed_16_spec (byte_to_Z b0 + 256 * byte_to_Z b1))
      as [Ht1 Ht2]; [lia |].
    destruct (to_signed_16_spec (byte_to_Z b8 + 256 * byte_to_Z b9))
      as [Hc1 Hc2]; [lia |].
    eexists _, _, _, _, _.
    split; [reflexivity |].
    cbn [temp light moist cond state version battery trace
         set_temp set_light set_moist set_cond set_state].
    repeat (split; [reflexivity |]).
    unfold byte_at.
    cbn [nth firstn skipn slice calcsize int_from_bytes_le Nat.sub].
    repeat rewrite Z.mul_0_r. repeat rewrite Z.add_0_r.
    split; [split; assumption |].
    split; [lia |].
    split; [lia |].
    split; [split; assumption |].
    repeat (split; [reflexivity |]).
    intros []; reflexivity.
  - intros s. eexists. split; [reflexivity |].
    repeat (split; [reflexivity |]). reflexivity.
Qed.

Lemma C4_read_sensor_done_decodes_witness :
  (10 <= length sensor_example)%nat
  /\ fst (read_sensor_done (Some sensor_example) __init__) = inr tt.
Proof.
  assert (Hlen : (10 <= length sensor_example)%nat) by (simpl; lia).
  split; [exact Hlen |].
  destruct (proj1 C4_read_sensor_done_decodes sensor_example __init__ Hlen)
    as (t & l & m & c & s' & Hrun & _).
  rewrite Hrun. reflexivity.
Defined.

(** ** C5: the firmware and battery payload *)






(** ** C6: payloads shorter than the layout *)




(** ** The action trigger methods *)

Section Methods.

Variable host : list effect -> host_call -> bool.

(** C7 (what the code does). [gap_connect()] without parameters and
    without a cached address stores the callback and then raises
    [AttributeError] at [self.debug]: it makes no call to the host stack, but
    it does not return [False]. *)
Theorem C7_gap_connect_without_address_raises
    (callback : option callback) (s : MiFlora) :
  _addr_type s = None -> _addr s = None ->
  gap_connect host None None callback s
  = (inl AttributeError, set__conn_callback callback s)
  /\ trace (snd (gap_connect host None None callback s)) = trace s.
Proof.
  intros Ht Ha.
  assert (Hrun : gap_connect host None None callback s
                 = (inl AttributeError, set__conn_callback callback s)).
  { unfold gap_connect, bind, ret, modify, get, self_debug, raise.
    cbn [fst snd _addr_type _addr set__conn_callback].
    rewrite Ht. reflexivity. }
  split; [exact Hrun | rewrite Hrun; reflexivity].
Qed.

(** C10. With the stored connection handle equal to 0 the object counts
    as connected, and [disconnect()] returns at once: no call to the host
    stack, no attribute changed.  The same holds with no handle stored.  Only
    with a handle that is neither [None] nor 0 does [disconnect()] call
    [gap_disconnect] and reset the object. *)
Theorem C10_disconnect_with_handle_zero (s : MiFlora) :
  (_conn_handle s = Some 0 ->
   is_connected s = true /\ disconnect host s = (inr tt, s))
  /\ (_conn_handle s = None -> disconnect host s = (inr tt, s))
  /\ (forall h : Z,
        _conn_handle s = Some h -> h <> 0 ->
        exists s',
          disconnect host s = (inr tt, s')
          /\ trace s'
             = trace s ++ [HostCall (ble_gap_disconnect h)
                             (host (trace s) (ble_gap_disconnect h))]
          /\ _conn_handle s' = None /\ state s' = _S_INIT
          /\ readings s' = (None, None, None, None, None, None)
          /\ (forall sl, get_slot sl s' = None)).
Proof.
  split; [| split].
  - intros Hh. unfold is_connected, disconnect, bind, get.
    rewrite Hh. split; reflexivity.
  - intros Hh. unfold disconnect, bind, get. rewrite Hh. reflexivity.
  - intros h Hh Hnz.
    assert (Htruthy : truthy_int (Some h) = true).
    { simpl. destruct (Z.eqb_spec h 0); [contradiction | reflexivity]. }
    unfold disconnect, bind, get. rewrite Hh, Htruthy.
    cbn [negb as_int ret].
    unfold try_except_OSError, ble, bind, get, log, modify, ret, raise, _reset.
    cbn [trace set_trace].
    destruct (host (trace s) (ble_gap_disconnect h));
      (eexists; split; [reflexivity |];
       cbn [trace _conn_handle state readings version battery temp light
            moist cond];
       repeat (split; [reflexivity |]); intros []; reflexivity).
Qed.

End Methods.

Lemma C7_gap_connect_without_address_raises_witness :
  _addr_type __init__ = None /\ _addr __init__ = None
  /\ fst (gap_connect accept_all None None None __init__)
     = inl AttributeError.
Proof.
  split; [reflexivity |]. split; [reflexivity |].
  rewrite (proj1 (C7_gap_connect_without_address_raises accept_all None
                    __init__ eq_refl eq_refl)).
  reflexivity.
Defined.

Lemma C10_disconnect_with_handle_zero_witness :
  _conn_handle connected_on_handle_0 = Some 0
  /\ is_connected connected_on_handle_0 = true
  /\ disconnect accept_all connected_on_handle_0
     = (inr tt, connected_on_handle_0)
  /\ battery (snd (disconnect accept_all connected_on_handle_1)) = None.
Proof.
  pose proof (C10_disconnect_with_handle_zero accept_all connected_on_handle_0)
    as (H0 & _ & _).
  pose proof (C10_disconnect_with_handle_zero accept_all connected_on_handle_1)
    as (_ & _ & H1).
  destruct (H0 eq_refl) as [Hc Hd].
  destruct (H1 1 eq_refl ltac:(lia)) as (s' & Hrun & _ & _ & _ & Hr & _).
  split; [reflexivity |]. split; [exact Hc |]. split; [exact Hd |].
  rewrite Hrun. cbn [snd]. unfold readings in Hr. congruence.
Defined.

(** ** The interrupt request handler *)

(** Unfolding the monad. *)
Ltac py_unfold :=
  repeat (progress (unfold bind, ret, get, modify, raise, log,
                    try_except_OSError, ble, as_int, to_bytes, index, unpack,
                    to_str,
                    self_debug, invoke, _update_value, _reset, scan,
                    gap_connect, disconnect, discover_services,
                    discover_characteristics, gattc_read, read,
                    read_firmware, mode_change, read_sensor, scan_done,
                    read_firmware_done, mode_change_done, read_sensor_done;
                  cbn)).

(** Case analysis on whatever blocks the computation. *)
Ltac py_case :=
  match goal with
  | |- context [if ?b then _ else _] =>
      lazymatch b with
      | context [match _ with _ => _ end] => fail
      | _ => destruct b eqn:?
      end
  | |- context [match ?x with _ => _ end] =>
      lazymatch x with
      | context [match _ with _ => _ end] => fail
      | _ => first [ is_var x; destruct x | destruct x eqn:? ]
      end
  end.

Ltac py_run := py_unfold; repeat (py_case; py_unfold).

Lemma invocations_snoc_host (tr : list effect) (c : host_call) (ok : bool) :
  invocations (tr ++ [HostCall c ok]) = invocations tr.
Proof.
  unfold invocations. rewrite List.filter_app. cbn. apply app_nil_r.
Qed.

Lemma floor_le (ev : irq_event) (st : Z) : floor ev st <= st.
Proof. unfold floor. destruct (stage ev); lia. Qed.

Lemma floor_mono (ev : irq_event) (a b : Z) :
  a <= b -> floor ev a <= floor ev b.
Proof. unfold floor. destruct (stage ev); lia. Qed.

Lemma lower_bound_mono (evs : list irq_event) :
  forall a b : Z, a <= b -> lower_bound evs a <= lower_bound evs b.
Proof.
  induction evs as [|ev evs IH]; intros a b Hab; cbn; [exact Hab |].
  apply IH. apply floor_mono. exact Hab.
Qed.

Lemma lower_bound_of_later_stages (evs : list irq_event) :
  forall st : Z,
    (forall ev k, In ev evs -> stage ev = Some k -> st <= k) ->
    lower_bound evs st = st.
Proof.
  induction evs as [|ev evs IH]; intros st Hst; cbn; [reflexivity |].
  assert (Hfl : floor ev st = st).
  { unfold floor. destruct (stage ev) as [k|] eqn:Hk; [| reflexivity].
    specialize (Hst ev k (or_introl eq_refl) Hk). lia. }
  rewrite Hfl. apply IH. intros ev' k Hin Hk.
  apply (Hst ev' k); [right; exact Hin | exact Hk].
Qed.

Section Dispatcher.

Variable decode_name : list byte -> string.
Variable host : list effect -> host_call -> bool.
Variable user : nat -> cb_args -> M unit.

(** The handlers that compare the handles of their data discard a foreign
    event: no attribute changes, the trace included. *)
Lemma foreign_event_discarded (ev : irq_event) (s : MiFlora) :
  compares_handles ev = true -> foreign ev s = true ->
  _irq decode_name host user ev s = (inr tt, s).
Proof.
  intros Hc Hf.
  destruct ev; try discriminate Hc; cbn [foreign] in Hf;
    unfold _irq, bind, get;
    match goal with
    | |- context [if ?b then _ else _] =>
        destruct b; [discriminate Hf | reflexivity]
    end.
Qed.

(** C2 (what the code does). The handler of [_IRQ_GATTC_READ_DONE] unpacks
    the connection and attribute handle of its data and compares neither:
    once the firmware was read, a read-done event with foreign handles starts
    the mode change, that is, it stores a write callback, moves the tracked
    attribute handle to 0x33 and sends a write to the host stack.  The
    readings and the state stay as they are. *)
Theorem C2_read_done_ignores_its_handles
    (conn_handle value_handle status h : Z) (s : MiFlora) :
  state s = _S_READ_FIRMWARE_DONE ->
  _conn_handle s = Some h ->
  foreign (IRQ_GATTC_READ_DONE conn_handle value_handle status) s = true ->
  exists s',
    _irq decode_name host user
      (IRQ_GATTC_READ_DONE conn_handle value_handle status) s = (inr tt, s')
    /\ trace s'
       = trace s
         ++ [HostCall (ble_gattc_write h _HANDLE_WRITE_MODE_CHANGE
                         _DATA_MODE_CHANGE 1)
               (host (trace s)
                  (ble_gattc_write h _HANDLE_WRITE_MODE_CHANGE
                     _DATA_MODE_CHANGE 1))]
    /\ _write_callback s' = Some self_mode_change_done
    /\ _value_handle s' = Some _HANDLE_WRITE_MODE_CHANGE
    /\ state s' = state s /\ readings s' = readings s.
Proof.
  intros Hst Hh _.
  unfold _irq, mode_change. py_unfold. rewrite Hst. py_unfold.
  rewrite Hh. py_unfold.
  destruct (host (trace s) _);
    (eexists; split; [reflexivity |]; cbn;
     repeat split; solve [reflexivity | exact Hst]).
Qed.


(** With its slot empty, the event of a one-shot slot invokes no callback
    at all. *)
Lemma empty_slot_invokes_nothing (ev : irq_event) (sl : slot) (s : MiFlora) :
  one_shot_slot ev = Some sl -> get_slot sl s = None ->
  invocations (trace (deliver decode_name host user s ev))
  = invocations (trace s).
Proof.
  intros Hsl Hempty.
  destruct ev; try discriminate Hsl; injection Hsl as <-;
    cbn [get_slot] in Hempty; unfold deliver, _irq; py_unfold;
    rewrite ?Hempty; py_run; rewrite ?invocations_snoc_host; reflexivity.
Qed.

(** The callback of a one-shot slot is entered with the slot still holding
    it; if it raises, the exception leaves the handler at once, and if it
    returns, the slot is cleared. *)
Lemma callback_then_clear (ev : irq_event) (sl : slot) (cb : callback)
    (s : MiFlora) :
  one_shot_slot ev = Some sl -> get_slot sl s = Some cb ->
  delivers ev s = true ->
  exists (args : cb_args) (s_in : MiFlora),
    get_slot sl s_in = Some cb
    /\ trace s_in = trace s ++ [Invoked sl cb args]
    /\ (forall (e : exn) (s_out : MiFlora),
          call user cb args s_in = (inl e, s_out) ->
          _irq decode_name host user ev s = (inl e, s_out))
    /\ (forall s_out : MiFlora,
          call user cb args s_in = (inr tt, s_out) ->
          get_slot sl (deliver decode_name host user s ev) = None).
Proof.
  intros Hsl Hcb Hd.
  destruct ev; try discriminate Hsl; injection Hsl as <-;
    cbn [get_slot] in Hcb; cbn [delivers] in Hd.
  - exists (Args3 (_addr_type s) (_addr s) (name s)).
    exists (set_trace (trace s ++ [Invoked scan_slot cb
                         (Args3 (_addr_type s) (_addr s) (name s))]) s).
    split; [exact Hcb |]. split; [reflexivity |].
    split.
    + intros e s_out Hcall. unfold _irq. py_unfold.
      rewrite Hcb, Hd. py_unfold. rewrite Hcall. reflexivity.
    + intros s_out Hcall. unfold deliver, _irq. py_unfold.
      rewrite Hcb, Hd. py_unfold. rewrite Hcall. py_run; reflexivity.
  - exists Args0.
    exists (set_trace (trace s ++ [Invoked conn_slot cb Args0])
              (set__conn_handle (Some conn_handle) s)).
    split; [exact Hcb |]. split; [reflexivity |].
    split.
    + intros e s_out Hcall. unfold _irq. py_unfold.
      rewrite Hcb, Hd. py_unfold. rewrite Hcall. reflexivity.
    + intros s_out Hcall. unfold deliver, _irq. py_unfold.
      rewrite Hcb, Hd. py_unfold. rewrite Hcall. py_run; reflexivity.
  - exists Args0.
    exists (set_trace (trace s ++ [Invoked serv_done_slot cb Args0])
              (set_state _S_SERVICE_DONE s)).
    split; [exact Hcb |]. split; [reflexivity |].
    split.
    + intros e s_out Hcall. unfold _irq. py_unfold.
      rewrite Hcb. py_unfold. rewrite Hcall. reflexivity.
    + intros s_out Hcall. unfold deliver, _irq. py_unfold.
      rewrite Hcb. py_unfold. rewrite Hcall. py_run; reflexivity.
  - exists Args0.
    exists (set_trace (trace s ++ [Invoked char_done_slot cb Args0])
              (set_state _S_CHARACTERISTIC_DONE s)).
    split; [exact Hcb |]. split; [reflexivity |].
    split.
    + intros e s_out Hcall. unfold _irq. py_unfold.
      rewrite Hcb. py_unfold. rewrite Hcall. reflexivity.
    + intros s_out Hcall. unfold deliver, _irq. py_unfold.
      rewrite Hcb. py_unfold. rewrite Hcall. py_run; reflexivity.
  - exists (Args1 (Some char_data)).
    exists (set_trace (trace s ++ [Invoked read_slot cb
                                     (Args1 (Some char_data))])
              (set__value (Some char_data) s)).
    split; [exact Hcb |]. split; [reflexivity |].
    split.
    + intros e s_out Hcall. unfold _irq. py_unfold.
      rewrite Hcb, Hd. py_unfold. rewrite Hcall. reflexivity.
    + intros s_out Hcall. unfold deliver, _irq. py_unfold.
      rewrite Hcb, Hd. py_unfold. rewrite Hcall. reflexivity.
  - exists Args0.
    exists (set_trace (trace s ++ [Invoked write_slot cb Args0]) s).
    split; [exact Hcb |]. split; [reflexivity |].
    split.
    + intros e s_out Hcall. unfold _irq. py_unfold.
      rewrite Hcb, Hd. py_unfold. rewrite Hcall. reflexivity.
    + intros s_out Hcall. unfold deliver, _irq. py_unfold.
      rewrite Hcb, Hd. py_unfold. rewrite Hcall. py_run; reflexivity.
Qed.

(** C3, amended. For the event of a one-shot slot: with the slot empty no
    callback is invoked; with the slot full and the handler reaching it, the
    callback is entered while the slot still holds it (the handler invokes
    first and clears afterwards), an exception of the callback leaves the
    handler with the slot as the callback left it, and after a callback that
    returns the slot is empty, so that a second event of the same kind
    invokes nothing.  ([_IRQ_SCAN_DONE] reaches this only with a device
    found.) *)
Theorem C3_one_shot_slots (ev : irq_event) (sl : slot) (s : MiFlora) :
  one_shot_slot ev = Some sl ->
  (get_slot sl s = None ->
   invocations (trace (deliver decode_name host user s ev))
   = invocations (trace s))
  /\ (forall cb : callback,
        get_slot sl s = Some cb -> delivers ev s = true ->
        exists (args : cb_args) (s_in : MiFlora),
          get_slot sl s_in = Some cb
          /\ trace s_in = trace s ++ [Invoked sl cb args]
          /\ (forall (e : exn) (s_out : MiFlora),
                call user cb args s_in = (inl e, s_out) ->
                _irq decode_name host user ev s = (inl e, s_out))
          /\ (forall s_out : MiFlora,
                call user cb args s_in = (inr tt, s_out) ->
                get_slot sl (deliver decode_name host user s ev) = None
                /\ forall ev2 : irq_event,
                     one_shot_slot ev2 = Some sl ->
                     invocations
                       (trace (deliver decode_name host user
                                 (deliver decode_name host user s ev) ev2))
                     = invocations
                         (trace (deliver decode_name host user s ev)))).
Proof.
  intros Hsl. split.
  - apply empty_slot_invokes_nothing. exact Hsl.
  - intros cb Hcb Hd.
    destruct (callback_then_clear ev sl cb s Hsl Hcb Hd)
      as (args & s_in & Hin & Htr & Hraise & Hret).
    exists args, s_in. repeat split; try assumption.
    + eapply Hret; eassumption.
    + intros ev2 Hsl2. apply (empty_slot_invokes_nothing ev2 sl); [exact Hsl2 |].
      eapply Hret; eassumption.
Qed.

(** *** The state along a sequence of events *)

Lemma auto_callbacks_step (ev : irq_event) (s : MiFlora) :
  auto_callbacks s = true ->
  auto_callbacks (deliver decode_name host user s ev) = true
  /\ (state (deliver decode_name host user s ev) = state s
      \/ stage ev = Some (state (deliver decode_name host user s ev))
      \/ (one_shot_slot ev = Some read_slot
          /\ state (deliver decode_name host user s ev)
             = _S_READ_SENSOR_DONE)
      \/ (is_disconnect ev = true
          /\ state (deliver decode_name host user s ev) = _S_INIT)).
Proof.
  destruct s as [st sa af nm rs ve ba te li mo co aty ad va c1 c2 c3 c4 c5 c6
                   c7 h1 h2 h3 h4 ss sv ch tr].
  unfold auto_callbacks. cbn. intros Hauto.
  destruct c1 as [[]|]; try discriminate Hauto;
    destruct c2 as [?|]; try discriminate Hauto;
    destruct c3 as [?|]; try discriminate Hauto;
    destruct c4 as [?|]; try discriminate Hauto;
    destruct c7 as [?|]; try discriminate Hauto;
    destruct c5 as [[]|]; try discriminate Hauto;
    destruct c6 as [[]|]; try discriminate Hauto;
    clear Hauto;
    destruct ev; unfold deliver, _irq, call; py_run;
    (split;
     [ reflexivity
     | first [ left; reflexivity
             | right; left; reflexivity
             | right; right; left; split; reflexivity
             | right; right; right; split; reflexivity ] ]).
Qed.

Lemma deliver_floor (ev : irq_event) (s : MiFlora) :
  auto_callbacks s = true -> is_disconnect ev = false ->
  floor ev (state s) <= state (deliver decode_name host user s ev).
Proof.
  intros Hauto Hnd.
  destruct (auto_callbacks_step ev s Hauto) as [_ [H | [H | [[H1 H2] | [H1 _]]]]].
  - rewrite H. apply floor_le.
  - unfold floor. rewrite H. lia.
  - rewrite H2. destruct ev; try discriminate H1.
    unfold floor. cbn. unfold _S_READ_FIRMWARE_DONE, _S_READ_SENSOR_DONE. lia.
  - congruence.
Qed.

(** C1, amended. With the callbacks of auto mode in the slots, every event
    leaves the state as it was, or sets it to the stage of the event whatever
    the state was before ([_S_SCAN_DONE] on scan-done, [_S_SERVICE_DONE] on
    service-done, [_S_CHARACTERISTIC_DONE] on characteristic-done,
    [_S_READ_FIRMWARE_DONE] or [_S_READ_SENSOR_DONE] on read-result,
    [_S_MODE_CHANGE_DONE] on write-done), or, for a disconnect, sets it to
    [_S_INIT].  So along a sequence without a disconnect the state never
    falls below the least of the state at the start and the stages of the
    events delivered; in particular it does not end below the state at the
    start when no event of the sequence has a stage below that state. *)
Theorem C1_state_along_events (evs : list irq_event) (s : MiFlora) :
  auto_callbacks s = true ->
  auto_callbacks (run decode_name host user evs s) = true
  /\ (forall ev : irq_event,
        let s1 := run decode_name host user evs s in
        let s2 := deliver decode_name host user s1 ev in
        state s2 = state s1
        \/ stage ev = Some (state s2)
        \/ (one_shot_slot ev = Some read_slot
            /\ state s2 = _S_READ_SENSOR_DONE)
        \/ (is_disconnect ev = true /\ state s2 = _S_INIT))
  /\ (forallb (fun ev => negb (is_disconnect ev)) evs = true ->
      lower_bound evs (state s) <= state (run decode_name host user evs s))
  /\ (forallb (fun ev => negb (is_disconnect ev)) evs = true ->
      (forall ev k, In ev evs -> stage ev = Some k -> state s <= k) ->
      state s <= state (run decode_name host user evs s)).
Proof.
  intros Hauto.
  assert (Hinv : forall l s0, auto_callbacks s0 = true ->
                   auto_callbacks (run decode_name host user l s0) = true).
  { induction l as [|ev l IH]; intros s0 H0; [exact H0 |].
    change (auto_callbacks
              (run decode_name host user l
                 (deliver decode_name host user s0 ev)) = true).
    apply IH. apply auto_callbacks_step. exact H0. }
  assert (Hlb : forall l s0, auto_callbacks s0 = true ->
                  forallb (fun ev => negb (is_disconnect ev)) l = true ->
                  lower_bound l (state s0)
                  <= state (run decode_name host user l s0)).
  { induction l as [|ev l IH]; intros s0 H0 Hnd; [cbn; lia |].
    change (lower_bound l (floor ev (state s0))
            <= state (run decode_name host user l
                        (deliver decode_name host user s0 ev))).
    cbn in Hnd. apply andb_prop in Hnd as [Hev Hl].
    apply negb_true_iff in Hev.
    pose proof (deliver_floor ev s0 H0 Hev) as Hstep.
    pose proof (IH (deliver decode_name host user s0 ev)
                  (proj1 (auto_callbacks_step ev s0 H0)) Hl) as Hrest.
    pose proof (lower_bound_mono l _ _ Hstep). lia. }
  split; [apply Hinv; exact Hauto |].
  split; [intros ev; cbv zeta; apply auto_callbacks_step, Hinv, Hauto |].
  split; [apply Hlb; exact Hauto |].
  intros Hnd Hlate.
  rewrite <- (lower_bound_of_later_stages evs (state s) Hlate) at 1.
  apply Hlb; assumption.
Qed.

End Dispatcher.

Lemma C2_read_done_ignores_its_handles_witness :
  foreign (IRQ_GATTC_READ_DONE 99 77 0) firmware_was_read = true
  /\ exists s',
       _irq no_name accept_all idle (IRQ_GATTC_READ_DONE 99 77 0)
         firmware_was_read = (inr tt, s')
       /\ trace s' = [HostCall (ble_gattc_write 1 0x33 [xa0; x1f] 1) true].
Proof.
  split; [reflexivity |].
  destruct (C2_read_done_ignores_its_handles no_name accept_all idle
              99 77 0 1 firmware_was_read eq_refl eq_refl eq_refl)
    as (s' & Hrun & Htr & _).
  exists s'. split; [exact Hrun | exact Htr].
Defined.

(** ** Concrete sessions *)

(** The example session ends with every reading decoded. *)
Example happy_path_readings :
  state sensor_was_read = _S_READ_SENSOR_DONE
  /\ battery sensor_was_read = Some 55
  /\ version sensor_was_read = Some "3.2.2"%string
  /\ light sensor_was_read = Some 10
  /\ moist sensor_was_read = Some 45
  /\ cond sensor_was_read = Some 15
  /\ auto_callbacks sensor_was_read = true.
Proof. vm_compute. repeat split; reflexivity. Qed.

(** C1, as stated, fails.  The application asks for the services once the
    connection is made, and auto mode reads the sensor in the meantime
    (state 6, nothing but the callbacks of auto mode in the slots); the
    service-done event that ends the discovery then sets the state to 2.  In
    the same way a characteristic-done event sets the state to 3.  Neither
    event is a disconnect. *)
Lemma C1_late_discovery_event_lowers_state :
  (auto_callbacks sensor_was_read_during_discovery = true
   /\ state sensor_was_read_during_discovery = _S_READ_SENSOR_DONE
   /\ state (deliver no_name accept_all idle sensor_was_read_during_discovery
               (IRQ_GATTC_SERVICE_DONE 1 0)) = _S_SERVICE_DONE
   /\ _S_SERVICE_DONE < _S_READ_SENSOR_DONE)
  /\ (auto_callbacks sensor_was_read = true
      /\ state sensor_was_read = _S_READ_SENSOR_DONE
      /\ state (deliver no_name accept_all idle sensor_was_read
                  (IRQ_GATTC_CHARACTERISTIC_DONE 1 0))
         = _S_CHARACTERISTIC_DONE
      /\ _S_CHARACTERISTIC_DONE < _S_READ_SENSOR_DONE).
Proof. vm_compute. repeat split; reflexivity. Qed.

Lemma C1_state_along_events_witness :
  auto_callbacks scan_started = true
  /\ lower_bound happy_path (state scan_started)
     <= state (run no_name accept_all idle happy_path scan_started).
Proof.
  split; [reflexivity |].
  apply (proj1 (proj2 (proj2
           (C1_state_along_events no_name accept_all idle happy_path
              scan_started eq_refl)))).
  reflexivity.
Defined.



(** C3, as stated, fails, in two ways.  When the scan ends with no device
    found, the callback is invoked and stays in its slot, so a second
    scan-done event invokes it again.  And the slot is cleared after the
    callback, not before it: when the callback of a read requests another
    read with a callback of its own, that callback is wiped out as soon as
    the first one returns, and the result of the second read invokes
    nothing. *)
Lemma C3_slot_not_cleared_before_callback :
  (_addr scan_started = None
   /\ _scan_callback
        (deliver no_name accept_all idle scan_started IRQ_SCAN_DONE)
      = Some self_scan_done
   /\ invocations
        (trace (run no_name accept_all idle [IRQ_SCAN_DONE; IRQ_SCAN_DONE]
                  scan_started))
      = [Invoked scan_slot self_scan_done (Args3 None None None);
         Invoked scan_slot self_scan_done (Args3 None None None)])
  /\ (trace (deliver no_name accept_all reads_again read_requested
               (IRQ_GATTC_READ_RESULT 1 0x38 firmware_example))
      = [Invoked read_slot (py_function 0) (Args1 (Some firmware_example));
         HostCall (ble_gattc_read 1 0x38) true]
      /\ _read_callback
           (deliver no_name accept_all reads_again read_requested
              (IRQ_GATTC_READ_RESULT 1 0x38 firmware_example))
         = None
      /\ invocations
           (trace (run no_name accept_all reads_again
                     [IRQ_GATTC_READ_RESULT 1 0x38 firmware_example;
                      IRQ_GATTC_READ_RESULT 1 0x38 firmware_example]
                     read_requested))
         = [Invoked read_slot (py_function 0)
              (Args1 (Some firmware_example))]).
Proof. vm_compute. repeat split; reflexivity. Qed.

Lemma C3_one_shot_slots_witness :
  one_shot_slot (IRQ_GATTC_READ_RESULT 1 0x38 firmware_example)
  = Some read_slot
  /\ get_slot read_slot
       (deliver no_name accept_all idle firmware_requested
          (IRQ_GATTC_READ_RESULT 1 0x38 firmware_example))
     = None.
Proof.
  split; [reflexivity |].
  destruct (proj2 (C3_one_shot_slots no_name accept_all idle
                     (IRQ_GATTC_READ_RESULT 1 0x38 firmware_example)
                     read_slot firmware_requested eq_refl)
              self_read_firmware_done eq_refl eq_refl)
    as (args & s_in & _ & _ & Hraise & Hret).
  destruct (call idle self_read_firmware_done args s_in)
    as [[e | []] s_out] eqn:Hcall.
  - specialize (Hraise e s_out eq_refl). vm_compute in Hraise.
    discriminate Hraise.
  - exact (proj1 (Hret s_out eq_refl)).
Defined.

(** ** The timeout poller *)

(** *** The ticks counter *)

Lemma ticks_diff_elapsed (a b : Z) :
  ticks_diff (ticks_ms a) (ticks_ms b)
  = (a - b + _TICKS_PERIOD / 2) mod _TICKS_PERIOD - _TICKS_PERIOD / 2.
Proof.
  unfold ticks_diff, ticks_ms. f_equal.
  rewrite <- Zplus_mod_idemp_l, <- Zminus_mod, Zplus_mod_idemp_l.
  reflexivity.
Qed.

(** Less than half a period after the first reading, the difference of the
    readings is the time that has passed. *)
Lemma ticks_diff_small (a b : Z) :
  0 <= a - b < _TICKS_PERIOD / 2 ->
  ticks_diff (ticks_ms a) (ticks_ms b) = a - b.
Proof.
  intros H. rewrite ticks_diff_elapsed.
  change (_TICKS_PERIOD / 2) with 536870912 in *.
  change _TICKS_PERIOD with 1073741824.
  rewrite Z.mod_small by lia. lia.
Qed.

(** The difference never reaches half a period. *)
Lemma ticks_diff_lt (ticks1 ticks2 : Z) :
  ticks_diff ticks1 ticks2 < _TICKS_PERIOD / 2.
Proof.
  unfold ticks_diff.
  change (_TICKS_PERIOD / 2) with 536870912.
  change _TICKS_PERIOD with 1073741824.
  pose proof (Z.mod_pos_bound (ticks1 - ticks2 + 536870912) 1073741824
                ltac:(lia)).
  lia.
Qed.

(** *** The loop of both pollers *)

Section PollLoop.

Variable hit : Z -> bool.

(** With a timeout that the counter can show, the loop entered at [now],
    less than half a period after the reading [t0] was taken at [tau0],
    leaves after [k] sleeps: every poll before that was inside the deadline
    and missed, and the loop leaves with [True] on the first poll that hits,
    with [False] on the first poll at or after the deadline. *)
Lemma poll_loop_bounded (timeout_ms tau0 : Z) :
  timeout_ms <= _TIMEOUT_MAX ->
  forall (n : nat) (now : Z),
    0 <= now - tau0 < _TICKS_PERIOD / 2 ->
    (Z.to_nat (timeout_ms - (now - tau0)) < n)%nat ->
    exists (b : bool) (k : Z),
      (forall fuel : nat,
          (n <= fuel)%nat ->
          poll_loop hit fuel timeout_ms (ticks_ms tau0) now
          = Some (b, now + _T_WAIT * k))
      /\ 0 <= k
      /\ (forall j : Z,
            0 <= j < k ->
            now + _T_WAIT * j - tau0 < timeout_ms
            /\ hit (now + _T_WAIT * j) = false)
      /\ (b = true ->
          now + _T_WAIT * k - tau0 < timeout_ms
          /\ hit (now + _T_WAIT * k) = true)
      /\ (b = false -> timeout_ms <= now + _T_WAIT * k - tau0).
Proof.
  intros Hmax. unfold _TIMEOUT_MAX in Hmax.
  change (_TICKS_PERIOD / 2) with 536870912 in *.
  induction n as [|n IH]; intros now Hnow Hfuel; [lia |].
  destruct (Z.ltb_spec (now - tau0) timeout_ms) as [Hin | Hout].
  - destruct (hit now) eqn:Hhit.
    + (* inside the deadline, a hit *)
      exists true, 0. rewrite Z.mul_0_r, Z.add_0_r.
      split.
      { intros [|fuel] Hle; [lia |]. cbn [poll_loop].
        rewrite ticks_diff_small by exact Hnow.
        destruct (Z.ltb_spec (now - tau0) timeout_ms); [| lia].
        rewrite Hhit. reflexivity. }
      repeat split; try lia; try assumption; try discriminate.
    + (* inside the deadline, a miss: sleep and poll again *)
      assert (Hnext : 0 <= now + _T_WAIT - tau0 < 536870912)
        by (unfold _T_WAIT in *; lia).
      assert (Hless : (Z.to_nat (timeout_ms - (now + _T_WAIT - tau0)) < n)%nat)
        by (unfold _T_WAIT in *; lia).
      destruct (IH (now + _T_WAIT) Hnext Hless)
        as (b & k & Hrun & Hk & Hbefore & Htrue & Hfalse).
      exists b, (k + 1).
      replace (now + _T_WAIT * (k + 1)) with (now + _T_WAIT + _T_WAIT * k)
        by lia.
      split.
      { intros [|fuel] Hle; [lia |]. cbn [poll_loop].
        rewrite ticks_diff_small by exact Hnow.
        destruct (Z.ltb_spec (now - tau0) timeout_ms); [| lia].
        rewrite Hhit. apply Hrun. lia. }
      split; [lia |]. split; [| split; assumption].
      intros j Hj. destruct (Z.eq_dec j 0) as [-> | Hnz].
      * rewrite Z.mul_0_r, Z.add_0_r. split; assumption.
      * replace (now + _T_WAIT * j) with (now + _T_WAIT + _T_WAIT * (j - 1))
          by lia.
        apply Hbefore. lia.
  - (* at or after the deadline *)
    exists false, 0. rewrite Z.mul_0_r, Z.add_0_r.
    split.
    { intros [|fuel] Hle; [lia |]. cbn [poll_loop].
      rewrite ticks_diff_small by exact Hnow.
      destruct (Z.ltb_spec (now - tau0) timeout_ms); [lia | reflexivity]. }
    repeat split; try lia; try discriminate.
Qed.

(** With a timeout of half a period or more the deadline never comes. *)
Lemma poll_loop_guard (timeout_ms t0 now : Z) :
  _TICKS_PERIOD / 2 <= timeout_ms ->
  (ticks_diff (ticks_ms now) t0 <? timeout_ms) = true.
Proof.
  intros H. apply Z.ltb_lt.
  pose proof (ticks_diff_lt (ticks_ms now) t0). lia.
Qed.

Lemma poll_loop_never_false (timeout_ms t0 : Z) :
  _TICKS_PERIOD / 2 <= timeout_ms ->
  forall (fuel : nat) (now t : Z),
    poll_loop hit fuel timeout_ms t0 now <> Some (false, t).
Proof.
  intros H. induction fuel as [|fuel IH]; intros now t; [discriminate |].
  cbn [poll_loop]. rewrite (poll_loop_guard _ _ _ H).
  destruct (hit now); [discriminate | apply IH].
Qed.

Lemma poll_loop_never_returns (timeout_ms t0 : Z) :
  _TICKS_PERIOD / 2 <= timeout_ms ->
  forall (fuel : nat) (now : Z),
    (forall j : Z, 0 <= j -> hit (now + _T_WAIT * j) = false) ->
    poll_loop hit fuel timeout_ms t0 now = None.
Proof.
  intros H. induction fuel as [|fuel IH]; intros now Hmiss; [reflexivity |].
  cbn [poll_loop]. rewrite (poll_loop_guard _ _ _ H).
  pose proof (Hmiss 0 ltac:(lia)) as H0.
  rewrite Z.mul_0_r, Z.add_0_r in H0. rewrite H0.
  apply IH. intros j Hj.
  replace (now + _T_WAIT + _T_WAIT * j) with (now + _T_WAIT * (j + 1)) by lia.
  apply Hmiss. lia.
Qed.

Lemma poll_loop_first_hit (timeout_ms t0 : Z) :
  _TICKS_PERIOD / 2 <= timeout_ms ->
  forall (fuel : nat) (now k : Z),
    0 <= k -> hit (now + _T_WAIT * k) = true ->
    (forall j : Z, 0 <= j < k -> hit (now + _T_WAIT * j) = false) ->
    (Z.to_nat k < fuel)%nat ->
    poll_loop hit fuel timeout_ms t0 now = Some (true, now + _T_WAIT * k).
Proof.
  intros H. induction fuel as [|fuel IH]; intros now k Hk Hhit Hmiss Hfuel;
    [lia |].
  cbn [poll_loop]. rewrite (poll_loop_guard _ _ _ H).
  destruct (Z.eq_dec k 0) as [-> | Hnz].
  - rewrite Z.mul_0_r, Z.add_0_r in *. rewrite Hhit. reflexivity.
  - pose proof (Hmiss 0 ltac:(lia)) as H0.
    rewrite Z.mul_0_r, Z.add_0_r in H0. rewrite H0.
    replace (now + _T_WAIT * k) with (now + _T_WAIT + _T_WAIT * (k - 1))
      by lia.
    apply IH; [lia | | | lia].
    + replace (now + _T_WAIT + _T_WAIT * (k - 1)) with (now + _T_WAIT * k)
        by lia.
      exact Hhit.
    + intros j Hj.
      replace (now + _T_WAIT + _T_WAIT * j) with (now + _T_WAIT * (j + 1))
        by lia.
      apply Hmiss. lia.
Qed.

End PollLoop.

Section PollerFacts.

Variable state_at : Z -> Z.

Lemma wait_for_loop_poll (state timeout_ms t0 : Z) :
  forall (fuel : nat) (now : Z),
    wait_for_loop state_at fuel state timeout_ms t0 now
    = poll_loop (fun t => state_at t =? state) fuel timeout_ms t0 now.
Proof.
  induction fuel as [|fuel IH]; intros now; [reflexivity |].
  cbn [wait_for_loop poll_loop]. rewrite IH. reflexivity.
Qed.

(** C8, amended. Called at [t0] with a timeout of at most half the ticks
    period less one sleep, [wait_for] terminates, for every target state and
    history of the state, without raising.  It polls at [t0], [t0 + 100],
    [t0 + 200], ... as long as less than [timeout_ms] have elapsed; it
    returns [True] at the first of these polls that sees the target state and
    [False] at the first poll at or after the deadline when none before saw
    it.  So with [timeout_ms <= 0] it returns [False] at once whatever the
    state is; and when the state reaches the target at some time during the
    wait and stays there, [True] is returned less than 100 ms later provided
    that a poll inside the deadline comes at or after that time.  With a
    timeout of half the ticks period or more, [ticks_diff] never reaches the
    timeout: [wait_for] never returns [False], it returns [True] at the
    first poll that sees the target state and does not return at all when no
    poll does. *)
Theorem C8_wait_for_polls (state timeout_ms t0 : Z) :
  (timeout_ms <= _TIMEOUT_MAX ->
   exists (b : bool) (k : Z),
     (forall fuel : nat,
         (Z.to_nat timeout_ms < fuel)%nat ->
         wait_for state_at fuel state timeout_ms t0
         = Some (b, t0 + _T_WAIT * k))
     /\ 0 <= k
     /\ (forall j : Z,
           0 <= j < k ->
           _T_WAIT * j < timeout_ms /\ state_at (t0 + _T_WAIT * j) <> state)
     /\ (b = true ->
         _T_WAIT * k < timeout_ms /\ state_at (t0 + _T_WAIT * k) = state)
     /\ (b = false -> timeout_ms <= _T_WAIT * k)
     /\ (timeout_ms <= 0 -> b = false /\ k = 0)
     /\ (forall tau : Z,
           t0 <= tau ->
           (forall u : Z, tau <= u -> state_at u = state) ->
           (exists j : Z,
               0 <= j /\ tau <= t0 + _T_WAIT * j /\ _T_WAIT * j < timeout_ms) ->
           b = true /\ t0 + _T_WAIT * k < tau + _T_WAIT))
  /\ (_TICKS_PERIOD / 2 <= timeout_ms ->
      (forall (fuel : nat) (t : Z),
          wait_for state_at fuel state timeout_ms t0 <> Some (false, t))
      /\ ((forall j : Z, 0 <= j -> state_at (t0 + _T_WAIT * j) <> state) ->
          forall fuel : nat,
            wait_for state_at fuel state timeout_ms t0 = None)
      /\ (forall k : Z,
            0 <= k -> state_at (t0 + _T_WAIT * k) = state ->
            (forall j : Z,
                0 <= j < k -> state_at (t0 + _T_WAIT * j) <> state) ->
            forall fuel : nat,
              (Z.to_nat k < fuel)%nat ->
              wait_for state_at fuel state timeout_ms t0
              = Some (true, t0 + _T_WAIT * k))).
Proof.
  split.
  - intros Hmax.
    destruct (poll_loop_bounded (fun t => state_at t =? state) timeout_ms t0
                Hmax (S (Z.to_nat timeout_ms)) t0)
      as (b & k & Hrun & Hk & Hbefore & Htrue & Hfalse).
    { change (_TICKS_PERIOD / 2) with 536870912. lia. }
    { lia. }
    assert (Hbefore' : forall j : Z,
               0 <= j < k ->
               _T_WAIT * j < timeout_ms
               /\ state_at (t0 + _T_WAIT * j) <> state).
    { intros j Hj. destruct (Hbefore j Hj) as [H1 H2].
      split; [lia | apply Z.eqb_neq; exact H2]. }
    assert (Htrue' : b = true ->
                     _T_WAIT * k < timeout_ms
                     /\ state_at (t0 + _T_WAIT * k) = state).
    { intros Hb. destruct (Htrue Hb) as [H1 H2].
      split; [lia | apply Z.eqb_eq; exact H2]. }
    exists b, k.
    split.
    { intros fuel Hfuel. unfold wait_for. rewrite wait_for_loop_poll.
      apply Hrun. lia. }
    split; [exact Hk |]. split; [exact Hbefore' |]. split; [exact Htrue' |].
    split; [intros Hb; specialize (Hfalse Hb); lia |].
    split.
    + intros Hto.
      assert (Hk0 : k = 0).
      { destruct (Z.eq_dec k 0) as [| Hnz]; [assumption |].
        destruct (Hbefore' 0 ltac:(lia)) as [H1 _]. lia. }
      split; [| exact Hk0].
      destruct b; [| reflexivity].
      destruct (Htrue' eq_refl) as [H1 _]. unfold _T_WAIT in *. lia.
    + intros tau Hstart Hstays (j & Hj & Htau & Hin).
      assert (Hb : b = true).
      { destruct b; [reflexivity |].
        specialize (Hfalse eq_refl).
        assert (Hjk : 0 <= j < k) by (unfold _T_WAIT in *; lia).
        destruct (Hbefore' j Hjk) as [_ Hne].
        exfalso. apply Hne. apply Hstays. exact Htau. }
      split; [exact Hb |].
      destruct (Z_lt_dec (t0 + _T_WAIT * k) (tau + _T_WAIT)) as [| Hge];
        [assumption |].
      exfalso.
      assert (Hjk : 0 <= k - 1 < k).
      { split; [| lia].
        destruct (Z_le_dec 0 (k - 1)) as [| Hneg]; [assumption |].
        assert (k = 0) by lia. subst k.
        unfold _T_WAIT in *. lia. }
      destruct (Hbefore' (k - 1) Hjk) as [_ Hne].
      apply Hne. apply Hstays. unfold _T_WAIT in *. lia.
  - intros Hbig. split; [| split].
    + intros fuel t. unfold wait_for. rewrite wait_for_loop_poll.
      apply poll_loop_never_false. exact Hbig.
    + intros Hmiss fuel. unfold wait_for. rewrite wait_for_loop_poll.
      apply poll_loop_never_returns; [exact Hbig |].
      intros j Hj. apply Z.eqb_neq. apply Hmiss. exact Hj.
    + intros k Hk Hhit Hmiss fuel Hfuel.
      unfold wait_for. rewrite wait_for_loop_poll.
      apply poll_loop_first_hit; try assumption.
      * apply Z.eqb_eq. exact Hhit.
      * intros j Hj. apply Z.eqb_neq. apply Hmiss. exact Hj.
Qed.

End PollerFacts.

(** C8, as stated, fails, at the deadline and for long timeouts.  With a
    timeout of 0 the wait returns [False] although the state is the target
    from the start.  With a timeout of 250 ms and the state reaching the
    target after 220 ms, inside the deadline, and staying there, the polls at
    0, 100 and 200 ms miss it and the wait returns [False] at 300 ms.  And
    with a timeout of [2 ^ 29] ms and a state that never is the target, the
    wait does not terminate: no amount of fuel gives a result. *)
Lemma C8_wait_for_misses_target_near_deadline :
  (already_read 0 = _S_READ_SENSOR_DONE
   /\ wait_for already_read 1 _S_READ_SENSOR_DONE 0 0 = Some (false, 0))
  /\ ((forall u : Z, 220 <= u -> read_after_220 u = _S_READ_SENSOR_DONE)
      /\ 220 < 250
      /\ wait_for read_after_220 4 _S_READ_SENSOR_DONE 250 0
         = Some (false, 300))
  /\ (forall fuel : nat,
        wait_for never_read fuel _S_READ_SENSOR_DONE (2 ^ 29) 0 = None).
Proof.
  split; [split; reflexivity |].
  split.
  - split; [| split; [lia | reflexivity]].
    intros u Hu. unfold read_after_220.
    destruct (Z.ltb_spec u 220); [lia | reflexivity].
  - intros fuel. unfold wait_for. rewrite wait_for_loop_poll.
    apply poll_loop_never_returns; [apply Z.leb_le; reflexivity |].
    intros j _. reflexivity.
Qed.

Lemma C8_wait_for_polls_witness :
  350 <= _TIMEOUT_MAX /\ 220 <= 0 + _T_WAIT * 3 /\ _T_WAIT * 3 < 350
  /\ exists k : Z,
       wait_for read_after_220 351 _S_READ_SENSOR_DONE 350 0
       = Some (true, 0 + _T_WAIT * k).
Proof.
  assert (H0 : 350 <= _TIMEOUT_MAX) by (apply Z.leb_le; reflexivity).
  assert (H1 : 220 <= 0 + _T_WAIT * 3) by (unfold _T_WAIT; lia).
  assert (H2 : _T_WAIT * 3 < 350) by (unfold _T_WAIT; lia).
  split; [exact H0 |]. split; [exact H1 |]. split; [exact H2 |].
  destruct (proj1 (C8_wait_for_polls read_after_220 _S_READ_SENSOR_DONE 350 0)
              H0)
    as (b & k & Hrun & _ & _ & _ & _ & _ & Hslack).
  exists k. rewrite (Hrun 351%nat ltac:(lia)).
  assert (Hb : b = true /\ 0 + _T_WAIT * k < 220 + _T_WAIT).
  { apply (Hslack 220).
    - lia.
    - intros u Hu. unfold read_after_220.
      destruct (Z.ltb_spec u 220); [lia | reflexivity].
    - exists 3. split; [lia |]. split; assumption. }
  destruct Hb as [-> _]. reflexivity.
Defined.

(** * Further properties of the driver *)

Lemma bytes_eqb_eq (x y : list byte) : bytes_eqb x y = true <-> x = y.
Proof.
  revert y. induction x as [|a x IH]; intros [|b y]; cbn;
    try (split; [discriminate | discriminate]); [tauto |].
  rewrite andb_true_iff, IH. split.
  - intros [Hab ->]. apply Byte.byte_dec_bl in Hab. congruence.
  - intros [= -> ->]. split; [apply Byte.byte_dec_lb |]; reflexivity.
Qed.

Lemma bytes_eqb_refl (x : list byte) : bytes_eqb x x = true.
Proof. apply bytes_eqb_eq. reflexivity. Qed.

Section Requests.

Variable decode_name : list byte -> string.
Variable host : list effect -> host_call -> bool.
Variable user : nat -> cb_args -> M unit.

(** X1. The handlers of disconnect, service-result, characteristic-result,
    read-result, write-done and notify events compare the handles of the
    event with the tracked ones: an event with another connection handle (or
    another attribute handle, where the event has one) leaves every attribute
    of the object as it was and reaches neither a callback nor the host
    stack.  An object that is not connected discards every such event,
    whatever handles it carries. *)
Theorem X1_foreign_or_unconnected_event_discarded
    (ev : irq_event) (s : MiFlora) :
  compares_handles ev = true ->
  foreign ev s = true \/ _conn_handle s = None ->
  _irq decode_name host user ev s = (inr tt, s).
Proof.
  intros Hc [Hf | Hnone].
  - apply foreign_event_discarded; assumption.
  - apply foreign_event_discarded; [assumption |].
    destruct ev; try discriminate Hc; cbn [foreign]; rewrite Hnone;
      reflexivity.
Qed.

(** X2. A scan result is captured exactly when its advertising type is
    ADV_IND, ADV_DIRECT_IND or SCAN_RSP and its address equals
    [search_addr].  Then the address type, the address and the RSSI are
    stored, [addr_found] is set, the name is stored when the advertisement
    carries one other than "?", and the scan is stopped with [gap_scan(None)];
    if the host stack refuses that call the [OSError] leaves the handler, with
    the device captured all the same.  State, readings, callbacks and
    connection are untouched.  Any other scan result changes nothing. *)
Theorem X2_scan_result_capture
    (addr_type : Z) (addr : list byte) (adv_type strength : Z)
    (adv_data : list byte) (s : MiFlora) :
  ((adv_type = 0 \/ adv_type = 1 \/ adv_type = 4) ->
   search_addr s = Some addr ->
   exists s',
     _irq decode_name host user
       (IRQ_SCAN_RESULT addr_type addr adv_type strength adv_data) s
     = (if host (trace s) ble_gap_scan_stop then inr tt else inl OSError, s')
     /\ _addr_type s' = Some addr_type /\ _addr s' = Some addr
     /\ rssi s' = strength /\ addr_found s' = true
     /\ name s'
        = (if String.eqb (decode_name adv_data) EmptyString
           || String.eqb (decode_name adv_data) "?"
           then name s else Some (decode_name adv_data))
     /\ trace s'
        = trace s ++ [HostCall ble_gap_scan_stop
                        (host (trace s) ble_gap_scan_stop)]
     /\ state s' = state s /\ readings s' = readings s
     /\ _conn_handle s' = _conn_handle s
     /\ (forall sl, get_slot sl s' = get_slot sl s))
  /\ ((adv_type <> 0 /\ adv_type <> 1 /\ adv_type <> 4)
      \/ search_addr s <> Some addr ->
      _irq decode_name host user
        (IRQ_SCAN_RESULT addr_type addr adv_type strength adv_data) s
      = (inr tt, s)).
Proof.
  split.
  - intros Hadv Hsearch.
    assert (Hc : (adv_type =? _ADV_IND) || (adv_type =? _ADV_DIRECT_IND)
                 || (adv_type =? _ADV_SCAN_RSP) = true).
    { destruct Hadv as [-> | [-> | ->]]; reflexivity. }
    unfold _irq. py_unfold. rewrite Hc, Hsearch. cbn [eq_opt_bytes andb].
    rewrite bytes_eqb_refl.
    destruct (decode_name adv_data) as [|c n] eqn:Hname.
    + py_unfold. destruct (host (trace s) ble_gap_scan_stop);
        (eexists; split; [reflexivity |]; cbn; repeat split;
         try reflexivity; intros []; reflexivity).
    + destruct (String.eqb (String c n) "?") eqn:Hq; py_unfold;
        destruct (host (trace s) ble_gap_scan_stop);
        (eexists; split; [reflexivity |]; cbn; repeat split;
         try reflexivity; intros []; reflexivity).
  - intros Hno. unfold _irq. py_unfold.
    destruct ((adv_type =? _ADV_IND) || (adv_type =? _ADV_DIRECT_IND)
              || (adv_type =? _ADV_SCAN_RSP)) eqn:Hc.
    + destruct (eq_opt_bytes addr (search_addr s)) eqn:Heq;
        [| reflexivity].
      exfalso. destruct Hno as [(H0 & H1 & H4) | Hs].
      * unfold _ADV_IND, _ADV_DIRECT_IND, _ADV_SCAN_RSP in Hc.
        apply orb_true_iff in Hc as [Hc | Hc];
          [apply orb_true_iff in Hc as [Hc | Hc] |];
          apply Z.eqb_eq in Hc; contradiction.
      * apply Hs. unfold eq_opt_bytes in Heq.
        destruct (search_addr s) as [b|]; [| discriminate].
        apply bytes_eqb_eq in Heq. congruence.
    + reflexivity.
Qed.

(** X3. [gap_connect] with both an address type and an address caches
    them and connects to them; with either of them missing it connects to
    the cached address and ignores the one that was given.  In both cases the
    callback is stored, exactly one [gap_connect] is sent to the host stack,
    and the result is [True] when the host stack accepted the call and
    [False] when it refused it.  The connection handle does not change: the
    object is not connected by this call. *)
Theorem X3_gap_connect_address_choice
    (addr_type : option Z) (addr : option (list byte))
    (callback : option callback) (t : Z) (a : list byte) (s : MiFlora) :
  (addr_type = Some t /\ addr = Some a)
  \/ ((addr_type = None \/ addr = None)
      /\ _addr_type s = Some t /\ _addr s = Some a) ->
  exists s',
    gap_connect host addr_type addr callback s
    = (inr (host (trace s) (ble_gap_connect t a)), s')
    /\ _addr_type s' = Some t /\ _addr s' = Some a
    /\ _conn_callback s' = callback
    /\ trace s'
       = trace s ++ [HostCall (ble_gap_connect t a)
                       (host (trace s) (ble_gap_connect t a))]
    /\ _conn_handle s' = _conn_handle s
    /\ state s' = state s /\ readings s' = readings s.
Proof.
  intros [[-> ->] | (Hmiss & Ht & Ha)].
  - py_unfold. destruct (host (trace s) (ble_gap_connect t a));
      (eexists; split; [reflexivity |]; cbn; repeat split; reflexivity).
  - unfold gap_connect.
    assert (Hskip :
      (match addr_type, addr with
       | Some _, Some _ =>
           (modify (set__addr_type addr_type) ;; modify (set__addr addr))%py
       | _, _ => ret tt
       end) = ret tt).
    { destruct Hmiss as [-> | ->]; [reflexivity |].
      destruct addr_type; reflexivity. }
    rewrite Hskip. py_unfold. rewrite Ht, Ha. py_unfold.
    destruct (host (trace s) (ble_gap_connect t a));
      (eexists; split; [reflexivity |]; cbn; repeat split;
       solve [reflexivity | assumption]).
Qed.

(** X4. On a connected object each of [read_firmware], [mode_change] and
    [read_sensor] stores its callback in its slot, moves the tracked
    attribute handle to its fixed value (0x38, 0x33, 0x35) and sends exactly
    one request to the host stack; it returns normally whether the host stack
    accepts the request or refuses it, so after a refused request the
    callback stays registered and nothing will invoke it.  [mode_change]
    writes the two bytes A0 1F with response. *)
Theorem X4_gatt_requests (callback : option callback) (h : Z) (s : MiFlora) :
  _conn_handle s = Some h ->
  (exists s',
      read_firmware host callback s = (inr tt, s')
      /\ _read_callback s' = callback
      /\ _value_handle s' = Some 0x38
      /\ trace s'
         = trace s ++ [HostCall (ble_gattc_read h 0x38)
                         (host (trace s) (ble_gattc_read h 0x38))]
      /\ state s' = state s /\ readings s' = readings s
      /\ _write_callback s' = _write_callback s)
  /\ (exists s',
         mode_change host callback s = (inr tt, s')
         /\ _write_callback s' = callback
         /\ _value_handle s' = Some 0x33
         /\ trace s'
            = trace s ++ [HostCall (ble_gattc_write h 0x33 [xa0; x1f] 1)
                            (host (trace s)
                               (ble_gattc_write h 0x33 [xa0; x1f] 1))]
         /\ state s' = state s /\ readings s' = readings s
         /\ _read_callback s' = _read_callback s)
  /\ (exists s',
         read_sensor host callback s = (inr tt, s')
         /\ _read_callback s' = callback
         /\ _value_handle s' = Some 0x35
         /\ trace s'
            = trace s ++ [HostCall (ble_gattc_read h 0x35)
                            (host (trace s) (ble_gattc_read h 0x35))]
         /\ state s' = state s /\ readings s' = readings s
         /\ _write_callback s' = _write_callback s).
Proof.
  intros Hh.
  split; [| split].
  - py_unfold. unfold is_connected. rewrite Hh. py_unfold. rewrite Hh.
    py_unfold.
    destruct (host (trace s) _);
      (eexists; split; [reflexivity |]; cbn; repeat split; reflexivity).
  - py_unfold. rewrite Hh. py_unfold.
    destruct (host (trace s) _);
      (eexists; split; [reflexivity |]; cbn; repeat split; reflexivity).
  - py_unfold. unfold is_connected. rewrite Hh. py_unfold. rewrite Hh.
    py_unfold.
    destruct (host (trace s) _);
      (eexists; split; [reflexivity |]; cbn; repeat split; reflexivity).
Qed.

(** X5. On an object that is not connected [read], [read_firmware],
    [read_sensor], [discover_services] and [discover_characteristics] send
    nothing to the host stack and do not store their callback; the three read
    methods change nothing at all, while the two discovery methods still
    replace their dictionary by an empty one. *)
Theorem X5_requests_need_connection
    (callback : option callback) (start_handle end_handle : Z)
    (s : MiFlora) :
  _conn_handle s = None ->
  read host callback s = (inr tt, s)
  /\ read_firmware host callback s = (inr tt, s)
  /\ read_sensor host callback s = (inr tt, s)
  /\ discover_services host callback s = (inr tt, set_services (Some ∅) s)
  /\ discover_characteristics host start_handle end_handle callback s
     = (inr tt, set_characteristics (Some ∅) s)
  /\ trace (set_services (Some ∅) s) = trace s
  /\ trace (set_characteristics (Some ∅) s) = trace s
  /\ (forall sl, get_slot sl (set_services (Some ∅) s) = get_slot sl s)
  /\ (forall sl, get_slot sl (set_characteristics (Some ∅) s) = get_slot sl s).
Proof.
  intros Hh.
  repeat split;
    try (py_unfold; unfold is_connected; cbn; rewrite Hh; reflexivity);
    try (intros []; reflexivity).
Qed.

(** X17. Two requests reach the host stack with a handle that is
    missing, and raise [TypeError] instead of returning.  [mode_change] does
    not ask whether the object is connected: on an object that is not, it
    stores its callback and the attribute handle 0x33 and then raises.
    [read] on a connected object uses the attribute handle of the last
    request; when there was none it stores its callback and raises.  With an
    attribute handle present, [read] stores the callback, sends one
    [gattc_read] for that handle and returns, whether or not the host stack
    accepts the request. *)
Theorem X17_requests_with_missing_handle
    (callback : option callback) (s : MiFlora) :
  (_conn_handle s = None ->
   mode_change host callback s
   = (inl TypeError,
      set__value_handle (Some _HANDLE_WRITE_MODE_CHANGE)
        (set__write_callback callback s)))
  /\ (forall h : Z,
        _conn_handle s = Some h -> _value_handle s = None ->
        read host callback s = (inl TypeError, set__read_callback callback s))
  /\ (forall h v : Z,
        _conn_handle s = Some h -> _value_handle s = Some v ->
        exists s',
          read host callback s = (inr tt, s')
          /\ _read_callback s' = callback
          /\ _value_handle s' = Some v
          /\ trace s'
             = trace s ++ [HostCall (ble_gattc_read h v)
                             (host (trace s) (ble_gattc_read h v))]
          /\ state s' = state s /\ readings s' = readings s).
Proof.
  split; [| split].
  - intros Hh. py_unfold. rewrite Hh. reflexivity.
  - intros h Hh Hv. py_unfold. unfold is_connected. rewrite Hh. py_unfold.
    rewrite Hh, Hv. reflexivity.
  - intros h v Hh Hv. py_unfold. unfold is_connected. rewrite Hh. py_unfold.
    rewrite Hh, Hv. py_unfold.
    destruct (host (trace s) _);
      (eexists; split; [reflexivity |]; cbn; repeat split;
       solve [reflexivity | assumption]).
Qed.

End Requests.

Lemma X1_foreign_or_unconnected_event_discarded_witness :
  compares_handles (IRQ_GATTC_WRITE_DONE 1 0 0) = true
  /\ foreign (IRQ_GATTC_WRITE_DONE 1 0 0)
       (set__value_handle (Some _HANDLE_WRITE_MODE_CHANGE) firmware_was_read)
     = true
  /\ _irq no_name accept_all idle (IRQ_GATTC_WRITE_DONE 1 0 0)
       (set__value_handle (Some _HANDLE_WRITE_MODE_CHANGE) firmware_was_read)
     = (inr tt,
        set__value_handle (Some _HANDLE_WRITE_MODE_CHANGE) firmware_was_read).
Proof.
  split; [reflexivity |]. split; [reflexivity |].
  apply (X1_foreign_or_unconnected_event_discarded no_name accept_all idle);
    [reflexivity | left; reflexivity].
Defined.

Lemma X3_gap_connect_address_choice_witness :
  fst (gap_connect accept_all (Some 0) (Some sensor_addr) None __init__)
  = inr true.
Proof.
  destruct (X3_gap_connect_address_choice accept_all (Some 0)
              (Some sensor_addr) None 0 sensor_addr __init__
              (or_introl (conj eq_refl eq_refl))) as (s' & Hrun & _).
  rewrite Hrun. reflexivity.
Defined.

Lemma X4_gatt_requests_witness :
  _conn_handle firmware_was_read = Some 1
  /\ fst (read_sensor accept_all (Some self_read_sensor_done)
            firmware_was_read) = inr tt.
Proof.
  split; [reflexivity |].
  destruct (X4_gatt_requests accept_all (Some self_read_sensor_done) 1
              firmware_was_read eq_refl) as (_ & _ & s' & Hrun & _).
  rewrite Hrun. reflexivity.
Defined.

Lemma X5_requests_need_connection_witness :
  _conn_handle __init__ = None
  /\ read_firmware accept_all (Some self_read_firmware_done) __init__
     = (inr tt, __init__).
Proof.
  split; [reflexivity |].
  exact (proj1 (proj2 (X5_requests_need_connection accept_all
                         (Some self_read_firmware_done) 0 0 __init__
                         eq_refl))).
Defined.

Lemma X2_scan_result_capture_witness :
  search_addr searching = Some sensor_addr
  /\ _addr (snd (_irq no_name accept_all idle sensor_found searching))
     = Some sensor_addr.
Proof.
  split; [reflexivity |].
  destruct (proj1 (X2_scan_result_capture no_name accept_all idle 0
                     sensor_addr _ADV_IND (-60) [] searching)
              (or_introl eq_refl) eq_refl) as (s' & Hrun & _ & Ha & _).
  unfold sensor_found. rewrite Hrun. exact Ha.
Defined.

Lemma X17_requests_with_missing_handle_witness :
  _conn_handle __init__ = None
  /\ fst (mode_change accept_all (Some self_mode_change_done) __init__)
     = inl TypeError.
Proof.
  split; [reflexivity |].
  rewrite (proj1 (X17_requests_with_missing_handle accept_all
                    (Some self_mode_change_done) __init__) eq_refl).
  reflexivity.
Defined.

Lemma fold_insert_absent (found : list (string * (Z * Z))) :
  forall (d : gmap string (Z * Z)) (u : string),
    ~ In u (map fst found) ->
    fold_left (fun m r => <[fst r := snd r]> m) found d !! u = d !! u.
Proof.
  induction found as [|r found IH]; intros d u Hnot; cbn; [reflexivity |].
  rewrite IH.
  - apply lookup_insert_ne. intros Heq. apply Hnot. left. exact Heq.
  - intros Hin. apply Hnot. right. exact Hin.
Qed.

Lemma fold_insert_last (found : list (string * (Z * Z))) :
  forall (d : gmap string (Z * Z)) (u : string) (p : Z * Z)
         (before after : list (string * (Z * Z))),
    found = before ++ (u, p) :: after ->
    ~ In u (map fst after) ->
    fold_left (fun m r => <[fst r := snd r]> m) found d !! u = Some p.
Proof.
  induction found as [|r found IH]; intros d u p before after Heq Hnot.
  - destruct before; discriminate Heq.
  - destruct before as [|r' before]; cbn in Heq; injection Heq as -> ->.
    + cbn. rewrite fold_insert_absent by exact Hnot.
      apply lookup_insert_eq.
    + cbn. apply (IH _ u p before after); [reflexivity | exact Hnot].
Qed.

Lemma last_cons_default {A : Type} (l : list A) :
  forall a d : A, List.last (a :: l) d = List.last l a.
Proof.
  induction l as [|b l IH]; intros a d; [reflexivity |].
  change (List.last (a :: b :: l) d) with (List.last (b :: l) d).
  rewrite (IH b d), (IH b a). reflexivity.
Qed.

Section Events.

Variable decode_name : list byte -> string.
Variable host : list effect -> host_call -> bool.
Variable user : nat -> cb_args -> M unit.

(** X6. A connect event for the cached address type and address makes
    the object connected on the handle of the event, whatever that handle is
    (0 included), and, with no connect callback registered, starts the
    firmware read of auto mode: callback [read_firmware_done], attribute
    handle 0x38, one [gattc_read] on the new handle.  A connect event for any
    other address or address type changes nothing. *)
Theorem X6_peripheral_connect
    (conn_handle addr_type : Z) (addr : list byte) (s : MiFlora) :
  (_addr_type s = Some addr_type -> _addr s = Some addr ->
   _conn_callback s = None ->
   exists s',
     _irq decode_name host user
       (IRQ_PERIPHERAL_CONNECT conn_handle addr_type addr) s = (inr tt, s')
     /\ _conn_handle s' = Some conn_handle /\ is_connected s' = true
     /\ _read_callback s' = Some self_read_firmware_done
     /\ _value_handle s' = Some 0x38
     /\ trace s'
        = trace s ++ [HostCall (ble_gattc_read conn_handle 0x38)
                        (host (trace s) (ble_gattc_read conn_handle 0x38))]
     /\ state s' = state s /\ readings s' = readings s)
  /\ (_addr_type s <> Some addr_type \/ _addr s <> Some addr ->
      _irq decode_name host user
        (IRQ_PERIPHERAL_CONNECT conn_handle addr_type addr) s = (inr tt, s)).
Proof.
  split.
  - intros Ht Ha Hcb. unfold _irq. py_unfold. rewrite Ht, Ha, Hcb.
    cbn [eq_opt_int eq_opt_bytes]. rewrite Z.eqb_refl, bytes_eqb_refl.
    py_unfold.
    destruct (host (trace s) _);
      (eexists; split; [reflexivity |]; cbn; repeat split; reflexivity).
  - intros Hno. unfold _irq. py_unfold.
    destruct (eq_opt_int addr_type (_addr_type s)
              && eq_opt_bytes addr (_addr s)) eqn:Hm; [| reflexivity].
    exfalso. apply andb_true_iff in Hm as [H1 H2].
    unfold eq_opt_int in H1. unfold eq_opt_bytes in H2.
    destruct (_addr_type s) as [t|]; [| discriminate].
    destruct (_addr s) as [a|]; [| discriminate].
    apply Z.eqb_eq in H1. apply bytes_eqb_eq in H2.
    destruct Hno as [H | H]; apply H; congruence.
Qed.

(** X8. A service result on the tracked connection records the handle
    range of the service under its UUID: looking that UUID up afterwards
    gives the range of this event (an earlier entry is overwritten), every
    other entry is as before, and the start and end handle are taken over
    exactly when the UUID is the one searched for.  If [discover_services] was
    never called there is no dictionary and the handler raises
    [AttributeError] with nothing changed; if the application never assigned
    [search_service] it raises after the entry was recorded. *)
Theorem X8_service_result_records
    (conn_handle start_handle end_handle : Z) (uuid : string) (s : MiFlora) :
  _conn_handle s = Some conn_handle ->
  (forall (d : gmap string (Z * Z)) (wanted : string),
      services s = Some d -> search_service s = Some wanted ->
      exists (s' : MiFlora) (d' : gmap string (Z * Z)),
        _irq decode_name host user
          (IRQ_GATTC_SERVICE_RESULT conn_handle start_handle end_handle uuid) s
        = (inr tt, s')
        /\ services s' = Some d'
        /\ d' !! uuid = Some (start_handle, end_handle)
        /\ (forall u : string, u <> uuid -> d' !! u = d !! u)
        /\ (uuid = wanted ->
            _start_handle s' = Some start_handle
            /\ _end_handle s' = Some end_handle)
        /\ (uuid <> wanted ->
            _start_handle s' = _start_handle s
            /\ _end_handle s' = _end_handle s)
        /\ state s' = state s /\ trace s' = trace s
        /\ readings s' = readings s)
  /\ (services s = None ->
      _irq decode_name host user
        (IRQ_GATTC_SERVICE_RESULT conn_handle start_handle end_handle uuid) s
      = (inl AttributeError, s))
  /\ (forall d : gmap string (Z * Z),
        services s = Some d -> search_service s = None ->
        _irq decode_name host user
          (IRQ_GATTC_SERVICE_RESULT conn_handle start_handle end_handle uuid) s
        = (inl AttributeError,
           set_services (Some (<[uuid := (start_handle, end_handle)]> d)) s)).
Proof.
  intros Hh. split; [| split].
  - intros d wanted Hd Hw. unfold _irq. py_unfold. rewrite Hh.
    cbn [eq_opt_int]. rewrite Z.eqb_refl, Hd. py_unfold. rewrite Hw.
    destruct (String.eqb_spec uuid wanted) as [Heq | Hne]; py_unfold;
      (eexists _, _; split; [reflexivity |]; cbn;
       split; [reflexivity |];
       split; [apply lookup_insert_eq |];
       split; [intros u Hu; apply lookup_insert_ne; congruence |];
       repeat split; solve [reflexivity | congruence]).
  - intros Hd. unfold _irq. py_unfold. rewrite Hh.
    cbn [eq_opt_int]. rewrite Z.eqb_refl, Hd. reflexivity.
  - intros d Hd Hw. unfold _irq. py_unfold. rewrite Hh.
    cbn [eq_opt_int]. rewrite Z.eqb_refl, Hd. py_unfold. rewrite Hw.
    reflexivity.
Qed.

Lemma service_result_step
    (h sh eh : Z) (u wanted : string) (d : gmap string (Z * Z))
    (s : MiFlora) :
  _conn_handle s = Some h -> services s = Some d ->
  search_service s = Some wanted ->
  let s' := deliver decode_name host user s (IRQ_GATTC_SERVICE_RESULT h sh eh u) in
  _conn_handle s' = Some h
  /\ services s' = Some (<[u := (sh, eh)]> d)
  /\ search_service s' = Some wanted
  /\ state s' = state s /\ trace s' = trace s /\ readings s' = readings s.
Proof.
  intros Hh Hd Hw. unfold deliver, _irq. py_unfold. rewrite Hh.
  cbn [eq_opt_int]. rewrite Z.eqb_refl, Hd. py_unfold. rewrite Hw.
  destruct (String.eqb u wanted); py_unfold; cbn;
    repeat split; assumption.
Qed.

(** X9. After [discover_services] on a connected object the dictionary
    is empty, and the service results of the discovery fill it one by one:
    when all of them have arrived, every UUID that was reported maps to the
    handle range of its last report and no other UUID is in the dictionary.
    Neither the state nor the readings change, and the only call to the host
    stack is the discovery request itself. *)
Theorem X9_discovered_services
    (h : Z) (wanted : string) (callback : option callback)
    (found : list (string * (Z * Z))) (s : MiFlora) :
  _conn_handle s = Some h -> search_service s = Some wanted ->
  exists (s' : MiFlora) (d : gmap string (Z * Z)),
    run decode_name host user (service_results h found)
      (snd (discover_services host callback s)) = s'
    /\ services s' = Some d
    /\ (forall (u : string) (p : Z * Z)
               (before after : list (string * (Z * Z))),
          found = before ++ (u, p) :: after ->
          ~ In u (map fst after) ->
          d !! u = Some p)
    /\ (forall u : string, ~ In u (map fst found) -> d !! u = None)
    /\ state s' = state s /\ readings s' = readings s
    /\ trace s'
       = trace s ++ [HostCall (ble_gattc_discover_services h)
                       (host (trace s) (ble_gattc_discover_services h))].
Proof.
  intros Hh Hw.
  set (s1 := snd (discover_services host callback s)).
  assert (H1 : _conn_handle s1 = Some h /\ services s1 = Some ∅
               /\ search_service s1 = Some wanted
               /\ state s1 = state s /\ readings s1 = readings s
               /\ trace s1
                  = trace s ++ [HostCall (ble_gattc_discover_services h)
                                  (host (trace s)
                                     (ble_gattc_discover_services h))]).
  { unfold s1. py_unfold. unfold is_connected. cbn. rewrite Hh. py_unfold.
    rewrite ?Hh. py_unfold.
    destruct (host (trace s) _); cbn; repeat split;
      solve [reflexivity | assumption]. }
  destruct H1 as (Hh1 & Hd1 & Hw1 & Hst1 & Hr1 & Htr1).
  assert (Hgen : forall l s0 d0,
             _conn_handle s0 = Some h -> services s0 = Some d0 ->
             search_service s0 = Some wanted ->
             let s' := run decode_name host user (service_results h l) s0 in
             services s'
             = Some (fold_left (fun m r => <[fst r := snd r]> m) l d0)
             /\ state s' = state s0 /\ readings s' = readings s0
             /\ trace s' = trace s0).
  { induction l as [|r l IH]; intros s0 d0 H0 Hd0 Hw0.
    - cbn. repeat split; assumption.
    - destruct r as [u [sh eh]].
      destruct (service_result_step h sh eh u wanted d0 s0 H0 Hd0 Hw0)
        as (Ha & Hb & Hc & Hd & He & Hf).
      destruct (IH _ _ Ha Hb Hc) as (Hi & Hj & Hk & Hl).
      change (run decode_name host user
                (service_results h ((u, (sh, eh)) :: l)) s0)
        with (run decode_name host user (service_results h l)
                (deliver decode_name host user s0
                   (IRQ_GATTC_SERVICE_RESULT h sh eh u))).
      cbv zeta. cbn [fold_left fst snd].
      rewrite Hi, Hj, Hk, Hl. repeat split; assumption. }
  destruct (Hgen found s1 ∅ Hh1 Hd1 Hw1) as (Hs & Hst & Hr & Htr).
  eexists _, _. split; [reflexivity |]. split; [exact Hs |].
  split; [intros u p before after Heq Hnot;
          apply (fold_insert_last found ∅ u p before after Heq Hnot) |].
  split; [intros u Hnot; rewrite fold_insert_absent by exact Hnot;
          apply lookup_empty |].
  repeat split; congruence.
Qed.

(** X10. A characteristic result on the tracked connection records the
    definition handle, the value handle and the properties under the UUID of
    the characteristic, overwriting an earlier entry and leaving the others;
    without a dictionary ([discover_characteristics] never called) the
    handler raises [AttributeError] with nothing changed.  The tracked
    attribute handle is not touched by what was discovered. *)
Theorem X10_characteristic_result_records
    (conn_handle def_handle value_handle properties : Z) (uuid : string)
    (s : MiFlora) :
  _conn_handle s = Some conn_handle ->
  (forall d : gmap string (Z * Z * Z),
      characteristics s = Some d ->
      exists (s' : MiFlora) (d' : gmap string (Z * Z * Z)),
        _irq decode_name host user
          (IRQ_GATTC_CHARACTERISTIC_RESULT conn_handle def_handle
             value_handle properties uuid) s
        = (inr tt, s')
        /\ characteristics s' = Some d'
        /\ d' !! uuid = Some (def_handle, value_handle, properties)
        /\ (forall u : string, u <> uuid -> d' !! u = d !! u)
        /\ _value_handle s' = _value_handle s
        /\ state s' = state s /\ trace s' = trace s
        /\ readings s' = readings s)
  /\ (characteristics s = None ->
      _irq decode_name host user
        (IRQ_GATTC_CHARACTERISTIC_RESULT conn_handle def_handle
           value_handle properties uuid) s
      = (inl AttributeError, s)).
Proof.
  intros Hh. split.
  - intros d Hd. unfold _irq. py_unfold. rewrite Hh.
    cbn [eq_opt_int]. rewrite Z.eqb_refl, Hd. py_unfold.
    eexists _, _. split; [reflexivity |]. cbn.
    split; [reflexivity |].
    split; [apply lookup_insert_eq |].
    split; [intros u Hu; apply lookup_insert_ne; congruence |].
    repeat split; reflexivity.
  - intros Hd. unfold _irq. py_unfold. rewrite Hh.
    cbn [eq_opt_int]. rewrite Z.eqb_refl, Hd. reflexivity.
Qed.

Lemma notifications_delivered
    (id : nat) (h v : Z) (payloads : list (list byte)) (s : MiFlora) :
  (forall (args : cb_args) (s0 : MiFlora), user id args s0 = (inr tt, s0)) ->
  _conn_handle s = Some h -> _value_handle s = Some v ->
  _notify_callback s = Some (py_function id) ->
  let s' := run decode_name host user (notifications h v payloads) s in
  trace s'
  = trace s
    ++ map (fun d => Invoked notify_slot (py_function id) (Args1 (Some d)))
         payloads
  /\ _notify_callback s' = Some (py_function id)
  /\ _value s' = List.last (map Some payloads) (_value s)
  /\ state s' = state s /\ readings s' = readings s.
Proof.
  intros Huser. revert s.
  induction payloads as [|d payloads IH]; intros s Hh Hv Hcb.
  - cbn. rewrite app_nil_r. repeat split; solve [reflexivity | assumption].
  - set (s1 := deliver decode_name host user s (IRQ_GATTC_NOTIFY h v d)).
    assert (H1 : _conn_handle s1 = Some h /\ _value_handle s1 = Some v
                 /\ _notify_callback s1 = Some (py_function id)
                 /\ trace s1
                    = trace s ++ [Invoked notify_slot (py_function id)
                                    (Args1 (Some d))]
                 /\ _value s1 = Some d
                 /\ state s1 = state s /\ readings s1 = readings s).
    { unfold s1, deliver, _irq. py_unfold. rewrite Hh, Hv, Hcb.
      cbn [eq_opt_int]. rewrite !Z.eqb_refl. py_unfold.
      unfold call. rewrite Huser. cbn. repeat split; assumption. }
    destruct H1 as (Hh1 & Hv1 & Hcb1 & Htr1 & Hval1 & Hst1 & Hr1).
    destruct (IH s1 Hh1 Hv1 Hcb1) as (Ha & Hb & Hc & Hd & He).
    change (run decode_name host user (notifications h v (d :: payloads)) s)
      with (run decode_name host user (notifications h v payloads) s1).
    cbv zeta. rewrite Ha, Hb, Hc, Hd, He, Htr1, Hval1, Hst1, Hr1.
    rewrite <- app_assoc. cbn [map app].
    repeat split; try reflexivity.
    symmetry. apply last_cons_default.
Qed.

(** X11. The notification callback is not a one-shot callback.  After
    [on_notify] with a function of the application that returns without
    touching the object, every notification of the tracked attribute on the
    tracked connection invokes that function with the payload of the
    notification, in the order of arrival, and it stays registered; the
    cached value is the payload of the last notification.  No call goes to
    the host stack and the state and the readings do not change. *)
Theorem X11_notifications_keep_their_callback
    (id : nat) (h v : Z) (payloads : list (list byte)) (s : MiFlora) :
  (forall (args : cb_args) (s0 : MiFlora), user id args s0 = (inr tt, s0)) ->
  _conn_handle s = Some h -> _value_handle s = Some v ->
  let s' := run decode_name host user (notifications h v payloads)
              (snd (on_notify (Some (py_function id)) s)) in
  trace s'
  = trace s
    ++ map (fun d => Invoked notify_slot (py_function id) (Args1 (Some d)))
         payloads
  /\ _notify_callback s' = Some (py_function id)
  /\ _value s' = List.last (map Some payloads) (_value s)
  /\ state s' = state s /\ readings s' = readings s.
Proof.
  intros Huser Hh Hv.
  exact (notifications_delivered id h v payloads
           (snd (on_notify (Some (py_function id)) s)) Huser Hh Hv eq_refl).
Qed.

(** X15. [scan] forgets the cached address but neither the state nor
    the flag [addr_found], the name or the RSSI of an earlier scan.  When the
    scan then ends without a result, [scan_done] is invoked with three [None]
    and sets the state to [_S_SCAN_DONE]: the state says that the scan is
    over, not that the device was found, and [addr_found], name and RSSI are
    still those of the earlier scan.  No connect is started. *)
Theorem X15_scan_without_result_keeps_flags (s : MiFlora) :
  exists s1 s2 : MiFlora,
    scan host (Some self_scan_done) s = (inr tt, s1)
    /\ _irq decode_name host user IRQ_SCAN_DONE s1 = (inr tt, s2)
    /\ _addr s2 = None /\ _addr_type s2 = None
    /\ state s1 = state s /\ state s2 = _S_SCAN_DONE
    /\ addr_found s2 = addr_found s /\ name s2 = name s /\ rssi s2 = rssi s
    /\ _scan_callback s2 = Some self_scan_done
    /\ trace s2
       = trace s
         ++ [HostCall (ble_gap_scan 2000 30000 30000 true)
               (host (trace s) (ble_gap_scan 2000 30000 30000 true));
             Invoked scan_slot self_scan_done (Args3 None None None)].
Proof.
  py_unfold.
  destruct (host (trace s) _);
    (eexists _, _; split; [reflexivity |]; unfold _irq, call; py_unfold;
     split; [reflexivity |]; cbn; rewrite <- app_assoc;
     repeat split; reflexivity).
Qed.

(** X16. A disconnect event for the tracked connection resets the object
    like [_reset]: not connected any more, state [_S_INIT], no readings, every
    callback gone (the notification callback too) and [search_addr] gone as
    well, while the dictionaries of the last discovery stay.  Since
    [search_addr] is gone, no scan result is captured afterwards until the
    application assigns it again. *)
Theorem X16_disconnect_event_resets
    (conn_handle addr_type : Z) (addr : list byte) (s : MiFlora) :
  _conn_handle s = Some conn_handle ->
  exists s',
    _irq decode_name host user
      (IRQ_PERIPHERAL_DISCONNECT conn_handle addr_type addr) s = (inr tt, s')
    /\ is_connected s' = false /\ state s' = _S_INIT
    /\ readings s' = (None, None, None, None, None, None)
    /\ (forall sl, get_slot sl s' = None)
    /\ search_addr s' = None /\ _addr s' = None /\ addr_found s' = false
    /\ services s' = services s /\ characteristics s' = characteristics s
    /\ search_service s' = search_service s /\ trace s' = trace s
    /\ (forall (t : Z) (a : list byte) (adv_type strength : Z)
               (adv_data : list byte),
          _irq decode_name host user
            (IRQ_SCAN_RESULT t a adv_type strength adv_data) s'
          = (inr tt, s')).
Proof.
  intros Hh. unfold _irq. py_unfold. rewrite Hh. cbn [eq_opt_int].
  rewrite Z.eqb_refl. eexists. split; [reflexivity |]. cbn.
  repeat split; try reflexivity.
  - intros []; reflexivity.
  - intros t a adv_type strength adv_data. py_unfold.
    rewrite andb_false_r. reflexivity.
Qed.

End Events.

Lemma X8_service_result_records_witness :
  _conn_handle discovering = Some 1
  /\ exists s' d',
       _irq no_name accept_all idle
         (IRQ_GATTC_SERVICE_RESULT 1 1 9 "UUID(0x1800)") discovering
       = (inr tt, s')
       /\ services s' = Some d'
       /\ d' !! "UUID(0x1800)"%string = Some (1, 9)
       /\ _start_handle s' = Some 1 /\ _end_handle s' = Some 9.
Proof.
  split; [reflexivity |].
  destruct (proj1 (X8_service_result_records no_name accept_all idle
                     1 1 9 "UUID(0x1800)" discovering eq_refl)
              ∅ "UUID(0x1800)"%string eq_refl eq_refl)
    as (s' & d' & Hrun & Hd & Hl & _ & Hse & _).
  exists s', d'. destruct (Hse eq_refl) as [H1 H2].
  repeat split; assumption.
Defined.

Lemma X9_discovered_services_witness :
  _conn_handle discovering = Some 1
  /\ search_service discovering = Some "UUID(0x1800)"%string
  /\ state (run no_name accept_all idle
              (service_results 1 [("UUID(0x1800)"%string, (1, 9));
                                  ("UUID(0x1801)"%string, (12, 15))])
              (snd (discover_services accept_all None discovering)))
     = _S_INIT.
Proof.
  split; [reflexivity |]. split; [reflexivity |].
  destruct (X9_discovered_services no_name accept_all idle 1
              "UUID(0x1800)" None
              [("UUID(0x1800)"%string, (1, 9));
               ("UUID(0x1801)"%string, (12, 15))]
              discovering eq_refl eq_refl)
    as (s' & d & Hrun & _ & _ & _ & Hst & _).
  rewrite Hrun. exact Hst.
Defined.

Lemma X10_characteristic_result_records_witness :
  _conn_handle (set_characteristics (Some ∅) discovering) = Some 1
  /\ fst (_irq no_name accept_all idle
            (IRQ_GATTC_CHARACTERISTIC_RESULT 1 2 3 2 "UUID(0x2a00)")
            (set_characteristics (Some ∅) discovering))
     = inr tt.
Proof.
  split; [reflexivity |].
  destruct (proj1 (X10_characteristic_result_records no_name accept_all idle
                     1 2 3 2 "UUID(0x2a00)"
                     (set_characteristics (Some ∅) discovering) eq_refl)
              ∅ eq_refl) as (s' & d' & Hrun & _).
  rewrite Hrun. reflexivity.
Defined.

Lemma X11_notifications_keep_their_callback_witness :
  _notify_callback
    (run no_name accept_all idle
       (notifications 1 0x35 [sensor_example; short_sensor_example])
       (snd (on_notify (Some (py_function 0)) subscribed)))
  = Some (py_function 0).
Proof.
  exact (proj1 (proj2
           (X11_notifications_keep_their_callback no_name accept_all idle
              0 1 0x35 [sensor_example; short_sensor_example] subscribed
              (fun _ _ => eq_refl) eq_refl eq_refl))).
Defined.

Lemma X16_disconnect_event_resets_witness :
  _conn_handle connected_on_handle_1 = Some 1
  /\ state (snd (_irq no_name accept_all idle
                   (IRQ_PERIPHERAL_DISCONNECT 1 0 sensor_addr)
                   connected_on_handle_1)) = _S_INIT.
Proof.
  split; [reflexivity |].
  destruct (X16_disconnect_event_resets no_name accept_all idle 1 0
              sensor_addr connected_on_handle_1 eq_refl)
    as (s' & Hrun & _ & Hst & _).
  rewrite Hrun. exact Hst.
Defined.

Lemma X6_peripheral_connect_witness :
  is_connected
    (snd (_irq no_name accept_all idle (IRQ_PERIPHERAL_CONNECT 0 0 sensor_addr)
            (run no_name accept_all idle [sensor_found; IRQ_SCAN_DONE]
               scan_started)))
  = true.
Proof.
  destruct (proj1 (X6_peripheral_connect no_name accept_all idle 0 0
                     sensor_addr
                     (run no_name accept_all idle [sensor_found; IRQ_SCAN_DONE]
                        scan_started))
              eq_refl eq_refl eq_refl) as (s' & Hrun & _ & Hc & _).
  rewrite Hrun. exact Hc.
Defined.

(** ** The connection poller *)

Section PollerConnectionFacts.

Variable connected_at : Z -> bool.

Lemma wait_for_connection_loop_poll (status : bool) (timeout_ms t0 : Z) :
  forall (fuel : nat) (now : Z),
    wait_for_connection_loop connected_at fuel status timeout_ms t0 now
    = poll_loop (fun t => Bool.eqb (connected_at t) status) fuel timeout_ms
        t0 now.
Proof.
  induction fuel as [|fuel IH]; intros now; [reflexivity |].
  cbn [wait_for_connection_loop poll_loop]. rewrite IH. reflexivity.
Qed.

(** X12. Called at [t0] with a timeout of at most half the ticks period
    less one sleep, [wait_for_connection] terminates.  It returns [True]
    exactly when one of the polls at [t0], [t0 + 100], [t0 + 200], ... that
    lie less than [timeout_ms] after [t0] finds [is_connected()] equal to the
    wanted status, and it returns at the first such poll; otherwise it
    returns [False] at the first poll at or after the deadline.  With
    [timeout_ms <= 0] no poll is made and the result is [False].  With a
    timeout of half the ticks period or more, [ticks_diff] never reaches the
    timeout: the method never returns [False], it returns [True] at the
    first poll that finds the wanted status and does not return at all when
    no poll does. *)
Theorem X12_wait_for_connection_polls (status : bool) (timeout_ms t0 : Z) :
  (timeout_ms <= _TIMEOUT_MAX ->
   exists (b : bool) (k : Z),
     (forall fuel : nat,
         (Z.to_nat timeout_ms < fuel)%nat ->
         wait_for_connection connected_at fuel status timeout_ms t0
         = Some (b, t0 + _T_WAIT * k))
     /\ 0 <= k
     /\ (forall j : Z,
           0 <= j < k ->
           _T_WAIT * j < timeout_ms
           /\ connected_at (t0 + _T_WAIT * j) <> status)
     /\ (b = true <->
         _T_WAIT * k < timeout_ms
         /\ connected_at (t0 + _T_WAIT * k) = status)
     /\ (b = true <->
         exists j : Z,
           0 <= j /\ _T_WAIT * j < timeout_ms
           /\ connected_at (t0 + _T_WAIT * j) = status)
     /\ (b = false ->
         timeout_ms <= _T_WAIT * k < timeout_ms + _T_WAIT \/ k = 0)
     /\ (timeout_ms <= 0 -> b = false /\ k = 0))
  /\ (_TICKS_PERIOD / 2 <= timeout_ms ->
      (forall (fuel : nat) (t : Z),
          wait_for_connection connected_at fuel status timeout_ms t0
          <> Some (false, t))
      /\ ((forall j : Z,
              0 <= j -> connected_at (t0 + _T_WAIT * j) <> status) ->
          forall fuel : nat,
            wait_for_connection connected_at fuel status timeout_ms t0 = None)
      /\ (forall k : Z,
            0 <= k -> connected_at (t0 + _T_WAIT * k) = status ->
            (forall j : Z,
                0 <= j < k -> connected_at (t0 + _T_WAIT * j) <> status) ->
            forall fuel : nat,
              (Z.to_nat k < fuel)%nat ->
              wait_for_connection connected_at fuel status timeout_ms t0
              = Some (true, t0 + _T_WAIT * k))).
Proof.
  split.
  - intros Hmax.
    destruct (poll_loop_bounded (fun t => Bool.eqb (connected_at t) status)
                timeout_ms t0 Hmax (S (Z.to_nat timeout_ms)) t0)
      as (b & k & Hrun & Hk & Hbefore & Htrue & Hfalse).
    { change (_TICKS_PERIOD / 2) with 536870912. lia. }
    { lia. }
    assert (Hbefore' : forall j : Z,
               0 <= j < k ->
               _T_WAIT * j < timeout_ms
               /\ connected_at (t0 + _T_WAIT * j) <> status).
    { intros j Hj. destruct (Hbefore j Hj) as [H1 H2].
      split; [lia | apply Bool.eqb_false_iff; exact H2]. }
    assert (Hiff : b = true <->
                   _T_WAIT * k < timeout_ms
                   /\ connected_at (t0 + _T_WAIT * k) = status).
    { split.
      - intros Hb. destruct (Htrue Hb) as [H1 H2].
        split; [lia | apply Bool.eqb_true_iff; exact H2].
      - intros [Hin _]. destruct b; [reflexivity |].
        specialize (Hfalse eq_refl). lia. }
    exists b, k.
    split.
    { intros fuel Hfuel. unfold wait_for_connection.
      rewrite wait_for_connection_loop_poll. apply Hrun. lia. }
    split; [exact Hk |]. split; [exact Hbefore' |]. split; [exact Hiff |].
    split; [| split].
    + split.
      * intros Hb. exists k. apply Hiff in Hb as [H1 H2].
        repeat split; assumption.
      * intros (j & Hj & Hin & Hst). destruct b; [reflexivity |].
        specialize (Hfalse eq_refl).
        assert (Hjk : 0 <= j < k) by (unfold _T_WAIT in *; lia).
        destruct (Hbefore' j Hjk) as [_ Hne]. contradiction.
    + intros Hb. specialize (Hfalse Hb).
      destruct (Z.eq_dec k 0) as [-> | Hnz]; [right; reflexivity | left].
      destruct (Hbefore' (k - 1) ltac:(lia)) as [Hin _].
      unfold _T_WAIT in *. lia.
    + intros Hto.
      assert (Hk0 : k = 0).
      { destruct (Z.eq_dec k 0) as [| Hnz]; [assumption |].
        destruct (Hbefore' 0 ltac:(lia)) as [H1 _]. lia. }
      split; [| exact Hk0].
      destruct b; [| reflexivity].
      destruct (proj1 Hiff eq_refl) as [H1 _]. unfold _T_WAIT in *. lia.
  - intros Hbig. split; [| split].
    + intros fuel t. unfold wait_for_connection.
      rewrite wait_for_connection_loop_poll.
      apply poll_loop_never_false. exact Hbig.
    + intros Hmiss fuel. unfold wait_for_connection.
      rewrite wait_for_connection_loop_poll.
      apply poll_loop_never_returns; [exact Hbig |].
      intros j Hj. apply Bool.eqb_false_iff. apply Hmiss. exact Hj.
    + intros k Hk Hhit Hmiss fuel Hfuel.
      unfold wait_for_connection. rewrite wait_for_connection_loop_poll.
      apply poll_loop_first_hit; try assumption.
      * apply Bool.eqb_true_iff. exact Hhit.
      * intros j Hj. apply Bool.eqb_false_iff. apply Hmiss. exact Hj.
Qed.

End PollerConnectionFacts.

Lemma X12_wait_for_connection_polls_witness :
  1000 <= _TIMEOUT_MAX
  /\ exists k : Z,
       wait_for_connection connected_after_150 1001 true 1000 0
       = Some (true, 0 + _T_WAIT * k).
Proof.
  assert (H0 : 1000 <= _TIMEOUT_MAX) by (apply Z.leb_le; reflexivity).
  split; [exact H0 |].
  destruct (proj1 (X12_wait_for_connection_polls connected_after_150 true
                     1000 0) H0)
    as (b & k & Hrun & _ & _ & _ & Hsome & _).
  exists k. rewrite (Hrun 1001%nat ltac:(lia)).
  assert (Hb : b = true).
  { apply Hsome. exists 2. split; [lia |].
    split; [unfold _T_WAIT; lia | reflexivity]. }
  rewrite Hb. reflexivity.
Defined.

(** ** The sensor payload and the readings *)

Lemma byte_to_Z_inj (a b : byte) : byte_to_Z a = byte_to_Z b -> a = b.
Proof.
  unfold byte_to_Z. intros H. apply N2Z.inj in H.
  pose proof (Byte.of_to_N a) as Ha. pose proof (Byte.of_to_N b) as Hb.
  rewrite H in Ha. congruence.
Qed.

Lemma to_signed_16_inj (u v : Z) :
  0 <= u < 65536 -> 0 <= v < 65536 ->
  to_signed 16 u = to_signed 16 v -> u = v.
Proof.
  intros Hu Hv. unfold to_signed.
  change (2 ^ (16 - 1)) with 32768. change (2 ^ 16) with 65536.
  destruct (Z.ltb_spec u 32768), (Z.ltb_spec v 32768); lia.
Qed.

(** X13. What [read_sensor_done] stores depends on bytes 0, 1 and 3 to 9
    of the payload and on nothing else: byte 2 and whatever follows byte 9
    are ignored.  Conversely these nine bytes can be read back from the
    stored readings: two payloads give the same temperature, light, moisture
    and conductivity only if they agree on all nine. *)
Theorem X13_sensor_readings_determine_payload
    (d1 d2 : list byte) (s1 s2 : MiFlora) :
  (10 <= length d1)%nat -> (10 <= length d2)%nat ->
  (temp (snd (read_sensor_done (Some d1) s1))
   = temp (snd (read_sensor_done (Some d2) s2))
   /\ light (snd (read_sensor_done (Some d1) s1))
      = light (snd (read_sensor_done (Some d2) s2))
   /\ moist (snd (read_sensor_done (Some d1) s1))
      = moist (snd (read_sensor_done (Some d2) s2))
   /\ cond (snd (read_sensor_done (Some d1) s1))
      = cond (snd (read_sensor_done (Some d2) s2)))
  <-> (slice 0 2 d1 = slice 0 2 d2 /\ slice 3 10 d1 = slice 3 10 d2).
Proof.
  intros H1 H2.
  destruct d1 as [|a0 [|a1 [|a2 [|a3 [|a4 [|a5 [|a6 [|a7 [|a8 [|a9 r1]]]]]]]]]];
    simpl in H1; try lia.
  destruct d2 as [|b0 [|b1 [|b2 [|b3 [|b4 [|b5 [|b6 [|b7 [|b8 [|b9 r2]]]]]]]]]];
    simpl in H2; try lia.
  cbn. split.
  - intros (Ht & Hl & Hm & Hc).
    injection Ht as Ht. injection Hl as Hl. injection Hm as Hm.
    injection Hc as Hc.
    pose proof (byte_to_Z_range a0). pose proof (byte_to_Z_range a1).
    pose proof (byte_to_Z_range a3). pose proof (byte_to_Z_range a4).
    pose proof (byte_to_Z_range a5). pose proof (byte_to_Z_range a6).
    pose proof (byte_to_Z_range a8). pose proof (byte_to_Z_range a9).
    pose proof (byte_to_Z_range b0). pose proof (byte_to_Z_range b1).
    pose proof (byte_to_Z_range b3). pose proof (byte_to_Z_range b4).
    pose proof (byte_to_Z_range b5). pose proof (byte_to_Z_range b6).
    pose proof (byte_to_Z_range b8). pose proof (byte_to_Z_range b9).
    apply to_signed_16_inj in Ht; [| lia | lia].
    apply to_signed_16_inj in Hc; [| lia | lia].
    assert (E7 : a7 = b7) by (apply byte_to_Z_inj; lia).
    assert (E0 : a0 = b0) by (apply byte_to_Z_inj; lia).
    assert (E1 : a1 = b1) by (apply byte_to_Z_inj; lia).
    assert (E3 : a3 = b3) by (apply byte_to_Z_inj; lia).
    assert (E4 : a4 = b4) by (apply byte_to_Z_inj; lia).
    assert (E5 : a5 = b5) by (apply byte_to_Z_inj; lia).
    assert (E6 : a6 = b6) by (apply byte_to_Z_inj; lia).
    assert (E8 : a8 = b8) by (apply byte_to_Z_inj; lia).
    assert (E9 : a9 = b9) by (apply byte_to_Z_inj; lia).
    subst. split; reflexivity.
  - intros [Ha Hb]. injection Ha as -> ->.
    injection Hb as -> -> -> -> -> -> ->.
    repeat split; reflexivity.
Qed.

Lemma X13_sensor_readings_determine_payload_witness :
  (10 <= length sensor_example)%nat
  /\ (10 <= length (sensor_example ++ [xff]))%nat
  /\ light (snd (read_sensor_done (Some sensor_example) __init__))
     = light (snd (read_sensor_done (Some (sensor_example ++ [xff]))
                     earlier_readings)).
Proof.
  assert (H1 : (10 <= length sensor_example)%nat) by (simpl; lia).
  assert (H2 : (10 <= length (sensor_example ++ [xff]))%nat) by (simpl; lia).
  split; [exact H1 |]. split; [exact H2 |].
  apply (proj2 (X13_sensor_readings_determine_payload sensor_example
                  (sensor_example ++ [xff]) __init__ earlier_readings H1 H2)).
  split; reflexivity.
Defined.

(** ** One complete session *)

Lemma requests_snoc_host (tr : list effect) (c : host_call) (ok : bool) :
  requests (tr ++ [HostCall c ok]) = requests tr ++ [c].
Proof. unfold requests. rewrite List.flat_map_app. reflexivity. Qed.

Lemma requests_snoc_invoked (tr : list effect) (sl : slot) (cb : callback)
    (args : cb_args) :
  requests (tr ++ [Invoked sl cb args]) = requests tr.
Proof. unfold requests. rewrite List.flat_map_app. apply app_nil_r. Qed.

(** One event of the session: run the handler, then read the attributes. *)
Ltac session_step :=
  unfold deliver, _irq, call; py_unfold;
  repeat (first [ rewrite Z.eqb_refl
                | rewrite bytes_eqb_refl
                | match goal with
                  | H : _ = _ |- _ => rewrite H
                  end
                | progress (unfold is_connected; cbn)
                | py_case ];
          py_unfold);
  cbn;
  rewrite ?requests_snoc_host, ?requests_snoc_invoked, ?requests_snoc_host;
  repeat split; solve [reflexivity | assumption | congruence].

Section Session.

Variable decode_name : list byte -> string.
Variable host : list effect -> host_call -> bool.
Variable user : nat -> cb_args -> M unit.

Lemma session_scan_result
    (addr_type strength : Z) (addr adv_data : list byte) (s : MiFlora) :
  search_addr s = Some addr ->
  _scan_callback s = Some self_scan_done -> _conn_callback s = None ->
  let s' := deliver decode_name host user s
              (IRQ_SCAN_RESULT addr_type addr _ADV_IND strength adv_data) in
  _addr_type s' = Some addr_type /\ _addr s' = Some addr
  /\ _scan_callback s' = Some self_scan_done /\ _conn_callback s' = None
  /\ requests (trace s') = requests (trace s) ++ [ble_gap_scan_stop].
Proof. intros Hsa Hcb Hcc. session_step. Qed.

Lemma session_scan_done (t : Z) (a0 : byte) (a : list byte) (s : MiFlora) :
  _addr_type s = Some t -> _addr s = Some (a0 :: a) ->
  _scan_callback s = Some self_scan_done -> _conn_callback s = None ->
  let s' := deliver decode_name host user s IRQ_SCAN_DONE in
  _addr_type s' = Some t /\ _addr s' = Some (a0 :: a)
  /\ _scan_callback s' = None /\ _conn_callback s' = None
  /\ requests (trace s')
     = requests (trace s) ++ [ble_gap_connect t (a0 :: a)].
Proof. intros Ht Ha Hcb Hcc. session_step. Qed.

Lemma session_connect (h t : Z) (a : list byte) (s : MiFlora) :
  _addr_type s = Some t -> _addr s = Some a ->
  _scan_callback s = None -> _conn_callback s = None ->
  let s' := deliver decode_name host user s (IRQ_PERIPHERAL_CONNECT h t a) in
  _conn_handle s' = Some h
  /\ _value_handle s' = Some _HANDLE_READ_VERSION_BATTERY
  /\ _read_callback s' = Some self_read_firmware_done
  /\ _scan_callback s' = None
  /\ requests (trace s')
     = requests (trace s) ++ [ble_gattc_read h _HANDLE_READ_VERSION_BATTERY].
Proof. intros Ht Ha Hcb Hcc. session_step. Qed.

Lemma session_firmware (h : Z) (fw : list byte) (s : MiFlora) :
  _conn_handle s = Some h ->
  _value_handle s = Some _HANDLE_READ_VERSION_BATTERY ->
  _read_callback s = Some self_read_firmware_done ->
  _scan_callback s = None ->
  (1 <= length fw)%nat -> is_7bit (slice 2 7 fw) = true ->
  let s' := deliver decode_name host user s
              (IRQ_GATTC_READ_RESULT h _HANDLE_READ_VERSION_BATTERY fw) in
  state s' = _S_READ_FIRMWARE_DONE /\ _conn_handle s' = Some h
  /\ version s' = Some (String.string_of_list_byte (slice 2 7 fw))
  /\ battery s' = Some (byte_at fw 0)
  /\ _read_callback s' = None /\ _scan_callback s' = None
  /\ requests (trace s') = requests (trace s).
Proof.
  intros Hh Hv Hcb Hsc Hlen H7.
  pose proof (str_utf8_7bit _ H7) as Hs.
  destruct fw as [|f0 fw]; [simpl in Hlen; lia |].
  clear H7 Hlen. cbn in Hs. session_step.
Qed.

Lemma session_mode_change (h v status : Z) (s : MiFlora) :
  state s = _S_READ_FIRMWARE_DONE -> _conn_handle s = Some h ->
  _read_callback s = None -> _scan_callback s = None ->
  let s' := deliver decode_name host user s (IRQ_GATTC_READ_DONE h v status) in
  state s' = _S_READ_FIRMWARE_DONE /\ _conn_handle s' = Some h
  /\ _value_handle s' = Some _HANDLE_WRITE_MODE_CHANGE
  /\ _write_callback s' = Some self_mode_change_done
  /\ version s' = version s /\ battery s' = battery s
  /\ _read_callback s' = None /\ _scan_callback s' = None
  /\ requests (trace s')
     = requests (trace s)
       ++ [ble_gattc_write h _HANDLE_WRITE_MODE_CHANGE _DATA_MODE_CHANGE 1].
Proof. intros Hst Hh Hcb Hsc. session_step. Qed.

Lemma session_write_done (h status : Z) (s : MiFlora) :
  state s = _S_READ_FIRMWARE_DONE -> _conn_handle s = Some h ->
  _value_handle s = Some _HANDLE_WRITE_MODE_CHANGE ->
  _write_callback s = Some self_mode_change_done ->
  _scan_callback s = None ->
  let s' := deliver decode_name host user s
              (IRQ_GATTC_WRITE_DONE h _HANDLE_WRITE_MODE_CHANGE status) in
  state s' = _S_MODE_CHANGE_DONE /\ _conn_handle s' = Some h
  /\ _value_handle s' = Some _HANDLE_READ_SENSOR_DATA
  /\ _read_callback s' = Some self_read_sensor_done
  /\ _write_callback s' = None
  /\ version s' = version s /\ battery s' = battery s
  /\ _scan_callback s' = None
  /\ requests (trace s')
     = requests (trace s) ++ [ble_gattc_read h _HANDLE_READ_SENSOR_DATA].
Proof. intros Hst Hh Hv Hcb Hsc. session_step. Qed.

Lemma session_sensor (h : Z) (b0 b1 b2 b3 b4 b5 b6 b7 b8 b9 : byte)
    (rest : list byte) (s : MiFlora) :
  _conn_handle s = Some h ->
  _value_handle s = Some _HANDLE_READ_SENSOR_DATA ->
  _read_callback s = Some self_read_sensor_done ->
  _write_callback s = None -> _scan_callback s = None ->
  let d := b0 :: b1 :: b2 :: b3 :: b4 :: b5 :: b6 :: b7 :: b8 :: b9 :: rest in
  let s' := deliver decode_name host user s
              (IRQ_GATTC_READ_RESULT h _HANDLE_READ_SENSOR_DATA d) in
  state s' = _S_READ_SENSOR_DONE /\ _conn_handle s' = Some h
  /\ temp s' = Some (to_signed 16 (int_from_bytes_le (slice 0 2 d)) # 10)%Q
  /\ light s' = Some (int_from_bytes_le (slice 3 7 d))
  /\ moist s' = Some (int_from_bytes_le (slice 7 8 d))
  /\ cond s' = Some (to_signed 16 (int_from_bytes_le (slice 8 10 d)))
  /\ version s' = version s /\ battery s' = battery s
  /\ _read_callback s' = None /\ _write_callback s' = None
  /\ _scan_callback s' = None
  /\ requests (trace s') = requests (trace s).
Proof. intros Hh Hv Hcb Hwc Hsc. session_step. Qed.

Lemma session_read_done (h v status : Z) (s : MiFlora) :
  state s = _S_READ_SENSOR_DONE ->
  deliver decode_name host user s (IRQ_GATTC_READ_DONE h v status) = s.
Proof.
  intros Hst. unfold deliver, _irq. py_unfold. rewrite Hst. reflexivity.
Qed.

(** X7. One complete session in auto mode.  The application assigns
    [search_addr] and starts the scan with [scan_done]; the advertisement
    of that address arrives, the scan ends, the device connects on some
    handle, and the payloads of the firmware read (at least one byte, the
    bytes 2-6 being 7-bit characters) and of the sensor read (at least ten
    bytes) arrive, each followed by its completion event.  Whatever address, address type, handle and payloads
    these are, the object ends in [_S_READ_SENSOR_DONE], connected, with
    version and battery decoded from the firmware payload and temperature,
    light, moisture and conductivity from the sensor payload, and with the
    scan, read and write slots empty.  Along the way the driver has sent
    exactly five requests to the host stack, in this order: stop the scan,
    connect, read attribute 0x38, write the mode change to attribute 0x33,
    read attribute 0x35.  The driver does not look at whether the host stack
    accepted them. *)
Theorem X7_session_reads_sensor
    (addr_type h strength : Z) (addr adv_data fw d : list byte)
    (s : MiFlora) :
  addr <> [] -> (1 <= length fw)%nat -> is_7bit (slice 2 7 fw) = true ->
  (10 <= length d)%nat ->
  search_addr s = Some addr ->
  _scan_callback s = Some self_scan_done -> _conn_callback s = None ->
  let s' :=
    run decode_name host user
      (session addr_type h strength addr adv_data fw d) s in
  state s' = _S_READ_SENSOR_DONE
  /\ _conn_handle s' = Some h
  /\ version s' = Some (String.string_of_list_byte (slice 2 7 fw))
  /\ battery s' = Some (byte_at fw 0)
  /\ temp s'
     = Some (to_signed 16 (int_from_bytes_le (slice 0 2 d)) # 10)%Q
  /\ light s' = Some (int_from_bytes_le (slice 3 7 d))
  /\ moist s' = Some (int_from_bytes_le (slice 7 8 d))
  /\ cond s' = Some (to_signed 16 (int_from_bytes_le (slice 8 10 d)))
  /\ requests (trace s')
     = requests (trace s)
       ++ [ble_gap_scan_stop;
           ble_gap_connect addr_type addr;
           ble_gattc_read h _HANDLE_READ_VERSION_BATTERY;
           ble_gattc_write h _HANDLE_WRITE_MODE_CHANGE _DATA_MODE_CHANGE 1;
           ble_gattc_read h _HANDLE_READ_SENSOR_DATA]
  /\ _scan_callback s' = None /\ _read_callback s' = None
  /\ _write_callback s' = None.
Proof.
  intros Haddr Hfw Hascii Hd Hsa Hcb Hcc.
  destruct addr as [|a0 addr]; [contradiction |].
  destruct d as [|b0 [|b1 [|b2 [|b3 [|b4 [|b5 [|b6 [|b7 [|b8 [|b9 rest]]]]]]]]]];
    simpl in Hd; try lia.
  unfold session, run. cbn [fold_left].
  pose proof (session_scan_result addr_type strength (a0 :: addr) adv_data s
                Hsa Hcb Hcc) as H1.
  cbv zeta in H1.
  set (s1 := deliver decode_name host user s _) in *. clearbody s1.
  destruct H1 as (A1 & A2 & A3 & A4 & A5).
  pose proof (session_scan_done addr_type a0 addr s1 A1 A2 A3 A4) as H2.
  cbv zeta in H2.
  set (s2 := deliver decode_name host user s1 _) in *. clearbody s2.
  destruct H2 as (B1 & B2 & B3 & B4 & B5).
  pose proof (session_connect h addr_type (a0 :: addr) s2 B1 B2 B3 B4) as H3.
  cbv zeta in H3.
  set (s3 := deliver decode_name host user s2 _) in *. clearbody s3.
  destruct H3 as (C1 & C2 & C3 & C4 & C5).
  pose proof (session_firmware h fw s3 C1 C2 C3 C4 Hfw Hascii) as H4.
  cbv zeta in H4.
  set (s4 := deliver decode_name host user s3 _) in *. clearbody s4.
  destruct H4 as (D1 & D2 & D3 & D4 & D5 & D6 & D7).
  pose proof (session_mode_change h _HANDLE_READ_VERSION_BATTERY 0 s4
                D1 D2 D5 D6) as H5.
  cbv zeta in H5.
  set (s5 := deliver decode_name host user s4 _) in *. clearbody s5.
  destruct H5 as (E1 & E2 & E3 & E4 & E5 & E6 & E7 & E8 & E9).
  pose proof (session_write_done h 0 s5 E1 E2 E3 E4 E8) as H6.
  cbv zeta in H6.
  set (s6 := deliver decode_name host user s5 _) in *. clearbody s6.
  destruct H6 as (F1 & F2 & F3 & F4 & F5 & F6 & F7 & F8 & F9).
  pose proof (session_sensor h b0 b1 b2 b3 b4 b5 b6 b7 b8 b9 rest s6
                F2 F3 F4 F5 F8) as H7.
  cbv zeta in H7.
  set (s7 := deliver decode_name host user s6 _) in *. clearbody s7.
  destruct H7 as (G1 & G2 & G3 & G4 & G5 & G6 & G7 & G8 & G9 & G10 & G11 & G12).
  rewrite (session_read_done h _HANDLE_READ_SENSOR_DATA 0 s7 G1).
  cbv zeta.
  split; [exact G1 |]. split; [exact G2 |].
  split; [congruence |]. split; [congruence |].
  split; [exact G3 |]. split; [exact G4 |]. split; [exact G5 |].
  split; [exact G6 |].
  split; [| repeat split; assumption].
  rewrite G12, F9, E9, D7, C5, B5, A5, <- !app_assoc. reflexivity.
Qed.

End Session.

Lemma X7_session_reads_sensor_witness :
  sensor_addr <> []
  /\ (1 <= length firmware_example)%nat
  /\ is_7bit (slice 2 7 firmware_example) = true
  /\ (10 <= length sensor_example)%nat
  /\ search_addr scan_started = Some sensor_addr
  /\ state (run no_name accept_all idle
              (session 0 1 (-60) sensor_addr [] firmware_example
                 sensor_example) scan_started)
     = _S_READ_SENSOR_DONE.
Proof.
  assert (Ha : sensor_addr <> []) by discriminate.
  assert (Hf : (1 <= length firmware_example)%nat) by (simpl; lia).
  assert (Hd : (10 <= length sensor_example)%nat) by (simpl; lia).
  split; [exact Ha |]. split; [exact Hf |]. split; [reflexivity |].
  split; [exact Hd |]. split; [reflexivity |].
  exact (proj1 (X7_session_reads_sensor no_name accept_all idle 0 1 (-60)
                  sensor_addr [] firmware_example sensor_example
                  scan_started Ha Hf eq_refl Hd eq_refl eq_refl eq_refl)).
Defined.

(** ** Sessions in auto mode *)

Lemma struct_unpack_raises (f : struct_fmt) (buf : list byte) (e : exn) :
  struct_unpack f buf = inl e -> e = ValueError.
Proof.
  unfold struct_unpack. destruct (length buf <? calcsize f)%nat; congruence.
Qed.

(** Closes the side conditions left by a case analysis of the handler. *)
Ltac auto_finish :=
  cbn in *;
  repeat match goal with
         | H : struct_unpack _ _ = inl ?e |- _ =>
             apply struct_unpack_raises in H; subst e
         | H : str_utf8 _ = inl ?e |- _ =>
             apply str_utf8_raises in H; subst e
         | H : ?x = _ |- _ => is_var x; subst x
         end;
  cbn in *;
  try discriminate;
  repeat match goal with
         | H : _ && _ = true |- _ => apply andb_prop in H as [? ?]
         end;
  try assumption;
  try reflexivity;
  try (match goal with
       | |- implb ?b true = true => destruct b; reflexivity
       | H : ?b = false |- implb ?b _ = true => rewrite H; reflexivity
       end).

Section AutoMode.

Variable decode_name : list byte -> string.
Variable host : list effect -> host_call -> bool.
Variable user : nat -> cb_args -> M unit.

Lemma auto_session_step (ev : irq_event) (s : MiFlora) :
  auto_session s = true ->
  auto_session (deliver decode_name host user s ev) = true
  /\ (forall (e : exn) (s' : MiFlora),
        _irq decode_name host user ev s = (inl e, s') ->
        In e (may_raise ev)).
Proof.
  destruct s as [st sa af nm rs ve ba te li mo co aty ad va c1 c2 c3 c4 c5 c6
                   c7 h1 h2 h3 h4 ss sv ch tr].
  unfold auto_session, auto_callbacks, addr_paired, firmware_read_connected,
    is_connected.
  cbn. intros Hauto.
  destruct c1 as [[]|]; try discriminate Hauto;
    destruct c2 as [?|]; try discriminate Hauto;
    destruct c3 as [?|]; try discriminate Hauto;
    destruct c4 as [?|]; try discriminate Hauto;
    destruct c7 as [?|]; try discriminate Hauto;
    destruct c5 as [[]|]; try discriminate Hauto;
    destruct c6 as [[]|]; try discriminate Hauto;
    cbn in Hauto;
    destruct ev; unfold deliver, _irq, call; py_run;
    cbn in Hauto |- *;
    try discriminate Hauto;
    repeat match goal with
           | H : (st =? _) = _ |- _ => rewrite ?H in Hauto |- *
           end;
    cbn in Hauto |- *;
    try discriminate Hauto;
    (split;
     [ auto_finish
     | intros exn_ s_ Heq_; auto_finish;
       first [ discriminate Heq_
             | injection Heq_ as <- <-; cbn; tauto ] ]).
Qed.

(** X14. A session in auto mode -- the slots hold nothing but the driver's
    own [scan_done], [read_firmware_done], [mode_change_done] and
    [read_sensor_done], a cached address has its address type, and the state
    is [_S_READ_FIRMWARE_DONE] only while connected -- stays one whatever
    events arrive, in whatever order, and whether or not the host accepts
    the requests.  In such a session the handler never raises [TypeError];
    the only exceptions that leave it are [OSError] on a scan result (the
    unguarded [gap_scan(None)]), [AttributeError] on a service or
    characteristic result (the dictionaries are created by the discovery
    methods only) and [IndexError] or [ValueError] on a read result (a
    payload too short for its callback, or, as [UnicodeError], which is a
    [ValueError], a firmware payload whose version is not UTF-8).  The
    events scan done, connect,
    disconnect, service done, characteristic done, read done, write done
    and notify never raise. *)
Theorem X14_auto_session_exceptions (evs : list irq_event) (s : MiFlora) :
  auto_session s = true ->
  auto_session (run decode_name host user evs s) = true
  /\ (forall (ev : irq_event) (e : exn) (s' : MiFlora),
        _irq decode_name host user ev (run decode_name host user evs s)
        = (inl e, s') ->
        In e (may_raise ev)).
Proof.
  revert s. induction evs as [|ev0 evs IH]; intros s Hauto.
  - split; [exact Hauto |].
    intros ev e s' Hirq. exact (proj2 (auto_session_step ev s Hauto) e s' Hirq).
  - change (run decode_name host user (ev0 :: evs) s)
      with (run decode_name host user evs (deliver decode_name host user s ev0)).
    apply IH. exact (proj1 (auto_session_step ev0 s Hauto)).
Qed.

End AutoMode.

Lemma X14_auto_session_exceptions_witness :
  auto_session scan_started = true
  /\ auto_session (run no_name accept_all idle happy_path scan_started) = true.
Proof.
  split; [reflexivity |].
  exact (proj1 (X14_auto_session_exceptions no_name accept_all idle happy_path
                  scan_started eq_refl)).
Defined.
